(** * go-atlassian: the authenticated transport layer of the Jira v3 client

    A shallow embedding of

      - [jira/v3/api_client_impl.go]: the functional options, [New],
        [Client.NewRequest], [Client.Call] and [Client.processResponse];
      - [jira/internal/issue_archive_impl.go]: the issue archival resource
        ([Preserve], [PreserveByJQL], [Restore], [Export]);
      - [pkg/infra/models/issue_archival.go]: the archival payload types.

    Go strings and byte buffers are byte sequences; both are [string] here
    (a Rocq [string] is a list of 8-bit characters).  A Go pointer or
    interface that may be nil is an [option].  A Go function returning
    several values returns a tuple; [(value, error)] pairs whose value is
    meaningless on error are a [result]. *)

From Stdlib Require Import ZArith NArith Ascii String List Lia.
From stdpp Require Import base option list strings gmap.

Local Open Scope string_scope.
Local Open Scope Z_scope.

(** ** Pieces of the Go standard library used by the sources *)
Module GoStd.

Abbreviation bytes := string.

Definition slash : ascii := "/"%char.

(** The loop of [path.Base] that removes trailing slashes, on the reversed
    path. *)
Fixpoint dropSlashes (r : list ascii) : list ascii :=
  match r with
  | c :: r' => if Ascii.eqb c slash then dropSlashes r' else r
  | [] => []
  end.

(** The reversed path up to (excluding) its first slash: reversed back it is
    [path[strings.LastIndexByte(path, '/')+1:]], or the whole path when it
    has no slash. *)
Fixpoint untilSlash (r : list ascii) : list ascii :=
  match r with
  | c :: r' => if Ascii.eqb c slash then [] else c :: untilSlash r'
  | [] => []
  end.

(** [path.Base]: the last element of a slash-separated path; trailing
    slashes are removed first; the empty path gives ".", a path of slashes
    only gives "/". *)
Definition path_Base (path : string) : string :=
  match path with
  | EmptyString => "."
  | _ =>
      let stripped := dropSlashes (rev (list_ascii_of_string path)) in
      match untilSlash stripped with
      | [] => "/"
      | last => string_of_list_ascii (rev last)
      end
  end.

(** [strings.HasSuffix]. *)
Definition HasSuffix (s suffix : string) : bool :=
  String.prefix (String.rev suffix) (String.rev s).

(** [base64.StdEncoding.EncodeToString], which [Request.SetBasicAuth]
    applies to "user:password". *)
Definition b64_alphabet : list ascii :=
  list_ascii_of_string
    "ABCDEFGHIJKLMNOPQRSTUVWXYZabcdefghijklmnopqrstuvwxyz0123456789+/".

Definition b64_digit (n : N) : ascii :=
  nth (N.to_nat (n mod 64)%N) b64_alphabet "="%char.

Fixpoint b64_encode (l : list ascii) : list ascii :=
  match l with
  | [] => []
  | [a] =>
      let n := (N_of_ascii a * 65536)%N in
      [b64_digit (n / 262144); b64_digit (n / 4096); "="%char; "="%char]
  | [a; b] =>
      let n := (N_of_ascii a * 65536 + N_of_ascii b * 256)%N in
      [b64_digit (n / 262144); b64_digit (n / 4096); b64_digit (n / 64);
       "="%char]
  | a :: b :: c :: r =>
      let n := (N_of_ascii a * 65536 + N_of_ascii b * 256 + N_of_ascii c)%N in
      b64_digit (n / 262144) :: b64_digit (n / 4096) :: b64_digit (n / 64)
        :: b64_digit n :: b64_encode r
  end.

Definition base64_EncodeToString (s : string) : string :=
  string_of_list_ascii (b64_encode (list_ascii_of_string s)).

(** [http.Header] is a map from canonical header names to value lists.
    Every name the client passes is already in canonical form, so
    canonicalisation is the identity on them. *)
Abbreviation Header := (gmap string (list string)).

Definition Header_Set (key value : string) (h : Header) : Header :=
  <[key := [value]]> h.

Definition Header_Add (key value : string) (h : Header) : Header :=
  <[key := (default [] (h !! key) ++ [value])%list]> h.

Definition Header_Values (key : string) (h : Header) : list string :=
  default [] (h !! key).

(** [net/http]'s request and response, reduced to what the client reads and
    writes. *)
Module http.

(** [URL] is the text of the request's URL ([URL.String()]). *)
Record Request := {
  Method : string;
  URL : string;
  Header : GoStd.Header;
  Body : bytes;
}.

(** [FinalRequest] is Go's [Response.Request], the request that was sent
    to obtain the response (the last one when redirects were followed).
    [ReadAll] is what [io.ReadAll(response.Body)] returns: the bytes read
    and the read error, if any. *)
Record Response := {
  StatusCode : Z;
  FinalRequest : Request;
  ReadAll : bytes * option string;
}.

Definition StatusBadRequest : Z := 400.
Definition StatusUnauthorized : Z := 401.
Definition StatusNotFound : Z := 404.
Definition StatusInternalServerError : Z := 500.

Definition MethodPost : string := "POST".
Definition MethodPut : string := "PUT".

Definition setHeader (h : GoStd.Header) (r : Request) : Request :=
  {| Method := Method r; URL := URL r; Header := h; Body := Body r |}.

(** [Request.SetBasicAuth]. *)
Definition SetBasicAuth (username password : string) (r : Request) : Request :=
  setHeader
    (Header_Set "Authorization"
       ("Basic " +:+ base64_EncodeToString (username +:+ ":" +:+ password))
       (Header r))
    r.

End http.

End GoStd.
Export GoStd.


(** ** [pkg/infra/models] *)
Module models.

(** Go's [error] values, by origin.  The sentinels [ErrNoSite] ...
    [ErrInvalidStatusCode] are the package-level error values of
    [pkg/infra/models] the sources refer to; [Errorf] is [fmt.Errorf]
    without a wrapped cause and [ErrorfWrap] is [fmt.Errorf] with [%w];
    the remaining constructors carry the text of an error produced by
    another package. *)
Inductive error : Type :=
  | ErrNoSite
  | ErrNoIssuesSlice
  | ErrNoJQL
  | ErrNotFound
  | ErrUnauthorized
  | ErrInternal
  | ErrBadRequest
  | ErrInvalidStatusCode
  | Errorf (msg : string)
  | ErrorfWrap (msg : string) (cause : error)
  | URLError (msg : string)
  | JSONError (msg : string)
  | IOError (msg : string)
  | HTTPError (msg : string)
  | OAuth2Error (msg : string)
  | ServiceError (msg : string).

Inductive result (A : Type) : Type :=
  | Ok (a : A)
  | Err (e : error).
Arguments Ok {A} a.
Arguments Err {A} e.

(* issue_archival.go *)
Record IssueArchivalErrorScheme := {
  Count : Z;
  IssueIdsOrKeys : list string;
  Message : string;
}.

Record IssueArchivalSyncErrorScheme := {
  IssueIsSubtask : option IssueArchivalErrorScheme;
  IssuesInArchivedProjects : option IssueArchivalErrorScheme;
  IssuesInUnlicensedProjects : option IssueArchivalErrorScheme;
  IssuesNotFound : option IssueArchivalErrorScheme;
  UserDoesNotHavePermission : option IssueArchivalErrorScheme;
}.

Record IssueArchivalSyncResponseScheme := {
  Errors : option IssueArchivalSyncErrorScheme;
  NumberOfIssuesUpdated : Z;
}.

Record DateRangeFilterRequestScheme := {
  DateAfter : string;
  DateBefore : string;
}.

Record IssueArchivalExportPayloadScheme := {
  ArchivedBy : list string;
  ArchivedDateRange : option DateRangeFilterRequestScheme;
  IssueTypes : list string;
  Projects : list string;
  Reporters : list string;
}.

(** [new(IssueArchivalSyncResponseScheme)]: the zero value. *)
Definition new_IssueArchivalSyncResponseScheme : IssueArchivalSyncResponseScheme :=
  {| Errors := None; NumberOfIssuesUpdated := 0 |}.

(** The response envelope, as [processResponse] fills it. *)
Record ResponseScheme := {
  Response : http.Response;
  Code : Z;
  Endpoint : string;
  Method : string;
  Bytes : bytes;
}.

(** [res.Bytes.Write(p)] on the envelope's buffer. *)
Definition Bytes_Write (p : bytes) (res : ResponseScheme) : ResponseScheme :=
  {| Response := Response res; Code := Code res; Endpoint := Endpoint res;
     Method := Method res; Bytes := Bytes res +:+ p |}.

End models.
Import models.

(** ** JSON, as the client uses it

    What [encoding/json] writes for a value and how it fills a destination
    belongs to the Go library; the client only dispatches on the outcome.
    [json_Encode v] is what [json.NewEncoder(buf).Encode(v)] appends to an
    empty buffer, or the text of its error.  [json_Unmarshal data d] is the
    destination after [json.Unmarshal(data, &d)] (which may have been filled
    in part when decoding fails) and the text of the error, if any. *)
Class JSONEncode (V : Type) := json_Encode : V -> string + bytes.
Class JSONUnmarshal (D : Type) := json_Unmarshal : bytes -> D -> D * option string.

(** A nil destination has no value to decode into. *)
#[export] Instance JSONUnmarshal_nil : JSONUnmarshal Empty_set :=
  fun _ d => match d with end.

(** The [body interface{}] argument of [NewRequest]: the nil interface, a
    (non-nil) [*bytes.Buffer], or any other value. *)
Inductive Body (V : Type) : Type :=
  | BodyNil
  | BodyBuffer (b : bytes)
  | BodyValue (v : V).
Arguments BodyNil {V}.
Arguments BodyBuffer {V} b.
Arguments BodyValue {V} v.

(** [json.Encoder.Encode] on the body.  A [bytes.Buffer] is a struct without
    exported fields, which [encoding/json] writes as an empty object. *)
Definition Encode {V} `{JSONEncode V} (body : Body V) : string + bytes :=
  match body with
  | BodyNil => inr ("null" +:+ String "010"%char "")
  | BodyBuffer _ => inr ("{}" +:+ String "010"%char "")
  | BodyValue v => json_Encode v
  end.

(** The values stored in the [map[string]interface{}] payloads of the
    archival resource. *)
Inductive MapValue : Type :=
  | MString (s : string)
  | MStrings (l : list string).

(** ** [service/common]: credentials and OAuth2 tokens *)
Module common.

(** Modelled from the spec: the credential state behind the
    [common.Authentication] interface ([internal.NewAuthenticationService]
    is not among the sources).  The record holds what the interface's
    queries return; the spec's "optional" values are the [Has...] flags and
    the empty bearer token. *)
Record Authentication := {
  HasBasicAuth : bool;
  GetBasicAuth : string * string;
  HasUserAgent : bool;
  GetUserAgent : string;
  GetBearerToken : string;
}.

Definition NewAuthenticationService : Authentication :=
  {| HasBasicAuth := false; GetBasicAuth := ("", "");
     HasUserAgent := false; GetUserAgent := ""; GetBearerToken := "" |}.

Definition SetBearerToken (token : string) (a : Authentication) : Authentication :=
  {| HasBasicAuth := HasBasicAuth a; GetBasicAuth := GetBasicAuth a;
     HasUserAgent := HasUserAgent a; GetUserAgent := GetUserAgent a;
     GetBearerToken := token |}.

Definition SetBasicAuth (mail token : string) (a : Authentication) : Authentication :=
  {| HasBasicAuth := true; GetBasicAuth := (mail, token);
     HasUserAgent := HasUserAgent a; GetUserAgent := GetUserAgent a;
     GetBearerToken := GetBearerToken a |}.

Definition SetUserAgent (agent : string) (a : Authentication) : Authentication :=
  {| HasBasicAuth := HasBasicAuth a; GetBasicAuth := GetBasicAuth a;
     HasUserAgent := true; GetUserAgent := agent;
     GetBearerToken := GetBearerToken a |}.

(** Modelled from the spec: [common.OAuth2Token] (access token, refresh
    token, token type, expiry instant). *)
Record OAuth2Token := {
  AccessToken : string;
  RefreshToken : string;
  TokenType : string;
  Expiry : option Z;
}.

End common.

(** ** The packages outside the sources

    [net/url], [net/http]'s transport, [encoding/json] on the payload types,
    [pkg/infra/oauth2] and the constructors of the other resource services are
    not among the sources.  The client is verified for every implementation
    of them. A failing operation gives the text of its error. *)
Class Platform := {
  (* context *)
  (** The non-nil values of [context.Context]. *)
  context_Context : Type;
  (* strconv *)
  (** [strconv.Quote], the [%q] verb of [fmt]. *)
  strconv_Quote : string -> string;
  (* net/url *)
  url_URL : Type;
  url_Parse : string -> string + url_URL;
  url_ResolveReference : url_URL -> url_URL -> url_URL;
  url_String : url_URL -> string;
  (* net/http *)
  HTTPClient : Type;
  http_DefaultClient : HTTPClient;
  (** [c.HTTP.Do(request)]. *)
  http_Do : HTTPClient -> http.Request -> string + http.Response;
  (** [validMethod]: the method is a non-empty HTTP token. *)
  http_validMethod : string -> bool;
  (** The URL with [removeEmptyPort] applied to its host. *)
  http_removeEmptyPort : url_URL -> url_URL;
  (* encoding/json on the archival types *)
  json_payload :: JSONEncode (gmap string MapValue);
  json_export :: JSONEncode (option IssueArchivalExportPayloadScheme);
  json_report :: JSONUnmarshal IssueArchivalSyncResponseScheme;
  (* pkg/infra/oauth2 *)
  OAuth2Config : Type;
  OAuth2Service : Type;
  TokenSource : Type;
  RoundTripper : Type;
  TokenStore : Type;
  TokenCallback : Type;
  oauth2_NewOAuth2Service : HTTPClient -> OAuth2Config -> string + OAuth2Service;
  oauth2_SetupTokenSourcesWithStorage :
    common.OAuth2Token -> OAuth2Service -> HTTPClient ->
    string + (TokenSource * TokenSource);
  oauth2_ExtractBaseTransport : HTTPClient -> RoundTripper;
  (** [ExtractWrapper]: the wrapper's [OriginalClient] when the client is a
      wrapper. *)
  oauth2_ExtractWrapper : HTTPClient -> option HTTPClient;
  (** [CreateOAuthTransport(source, base, c.Auth)]; the transport keeps a
      reference to the client's credential state. *)
  oauth2_CreateOAuthTransport : TokenSource -> RoundTripper -> HTTPClient;
  (** [WrapHTTPClient(c).WithStore(store)]. *)
  oauth2_WrapWithStore : HTTPClient -> TokenStore -> HTTPClient;
  (** [WrapHTTPClient(c).WithCallback(callback)]. *)
  oauth2_WrapWithCallback : HTTPClient -> TokenCallback -> HTTPClient;
  (* jira/internal *)
  (** The constructors [internal.New...Service(client, version)] that [New]
      runs one after the other: the first error, if any. *)
  internal_NewServices : string -> option error;
}.

(** ** [service]: the connector interface and the record of its use *)
Module service.

Section connector.
Context `{P : Platform}.

(** What a call returns: the destination as the call left it, the envelope
    and the error (Go's [structure] argument is updated in place). *)
Definition CallResult (D : Type) : Type :=
  (option D * option ResponseScheme * option error)%type.

(** [service.Connector]: what a resource service needs from a client. *)
Record Connector := {
  NewRequest :
    forall V `{JSONEncode V},
      option context_Context -> string -> string -> string -> Body V -> result http.Request;
  Call :
    forall D `{JSONUnmarshal D},
      http.Request -> option D -> CallResult D;
}.

(** The uses a resource method makes of its connector, in order. *)
Inductive Event : Type :=
  | EvNewRequest (ctx : option context_Context) (method urlStr contentType : string)
  | EvCall (request : http.Request).

(** Resource methods run in a state monad over the connector's log. *)
Definition M (A : Type) : Type := list Event -> A * list Event.

Definition ret {A} (a : A) : M A := fun log => (a, log).

Definition bind {A B} (m : M A) (k : A -> M B) : M B :=
  fun log => let (a, log') := m log in k a log'.

Definition emit (e : Event) : M unit := fun log => (tt, (log ++ [e])%list).

Definition run {A} (m : M A) : A * list Event := m [].

End connector.

End service.

Declare Scope conn_scope.
Delimit Scope conn_scope with conn.
Notation "x <- m ;; k" := (service.bind m (fun x => k))
  (at level 100, m at next level, right associativity) : conn_scope.
Notation "m ;;; k" := (service.bind m (fun _ => k))
  (at level 100, right associativity) : conn_scope.

(** ** [jira/internal/issue_archive_impl.go] *)
Module internal.
Import service.
Local Open Scope conn_scope.

Section archival.
Context `{P : Platform}.

Record internalIssueArchivalImpl := {
  c : Connector;
  version : string;
}.

(** [IssueArchivalService] forwards every method to its
    [internalClient]. *)
Record IssueArchivalService := {
  internalClient : internalIssueArchivalImpl;
}.

Definition NewIssueArchivalService (client : Connector) (version : string)
  : IssueArchivalService :=
  {| internalClient := {| c := client; version := version |} |}.

(** [i.c.NewRequest(ctx, ...)] and [i.c.Call(...)], recorded. *)
Definition c_NewRequest {V} `{JSONEncode V} (i : internalIssueArchivalImpl)
    (ctx : option context_Context) (method urlStr contentType : string) (body : Body V)
  : M (result http.Request) :=
  emit (EvNewRequest ctx method urlStr contentType) ;;;
  ret (NewRequest (c i) V ctx method urlStr contentType body).

Definition c_Call {D} `{JSONUnmarshal D} (i : internalIssueArchivalImpl)
    (request : http.Request) (structure : option D) : M (CallResult D) :=
  emit (EvCall request) ;;;
  ret (Call (c i) D request structure).

Definition Preserve (i : internalIssueArchivalImpl) (ctx : option context_Context)
    (issueIdsOrKeys : list string)
  : M (option IssueArchivalSyncResponseScheme * option ResponseScheme * option error) :=
  if decide (length issueIdsOrKeys = 0%nat) then
    ret (None, None, Some ErrNoIssuesSlice)
  else
    let payload : gmap string MapValue :=
      <["issueIdsOrKeys" := MStrings issueIdsOrKeys]> ∅ in
    let endpoint := "rest/api/" +:+ version i +:+ "/issue/archive" in
    r <- c_NewRequest i ctx http.MethodPut endpoint "" (BodyValue payload) ;;
    match r with
    | Err err => ret (None, None, Some err)
    | Ok request =>
        let report := new_IssueArchivalSyncResponseScheme in
        out <- c_Call i request (Some report) ;;
        match out with
        | (_, response, Some err) => ret (None, response, Some err)
        | (filled, response, None) =>
            (* report is the pointer handed to Call: never nil *)
            ret (Some (default report filled), response, None)
        end
    end.

Definition PreserveByJQL (i : internalIssueArchivalImpl) (ctx : option context_Context)
    (jql : string)
  : M (string * option ResponseScheme * option error) :=
  if decide (jql = "") then
    ret ("", None, Some ErrNoJQL)
  else
    let payload : gmap string MapValue := <["jql" := MString jql]> ∅ in
    let endpoint := "rest/api/" +:+ version i +:+ "/issue/archive" in
    r <- c_NewRequest i ctx http.MethodPost endpoint "" (BodyValue payload) ;;
    match r with
    | Err err => ret ("", None, Some err)
    | Ok request =>
        out <- c_Call (D := Empty_set) i request None ;;
        match out with
        | (_, response, Some err) => ret ("", response, Some err)
        | (_, response, None) =>
            (* response.Bytes.String(): the envelope is never nil when
               the call reports no error *)
            ret (path_Base (from_option Bytes "" response), response, None)
        end
    end.

Definition Restore (i : internalIssueArchivalImpl) (ctx : option context_Context)
    (issueIdsOrKeys : list string)
  : M (option IssueArchivalSyncResponseScheme * option ResponseScheme * option error) :=
  if decide (length issueIdsOrKeys = 0%nat) then
    ret (None, None, Some ErrNoIssuesSlice)
  else
    let payload : gmap string MapValue :=
      <["issueIdsOrKeys" := MStrings issueIdsOrKeys]> ∅ in
    let endpoint := "rest/api/" +:+ version i +:+ "/issue/unarchive" in
    r <- c_NewRequest i ctx http.MethodPut endpoint "" (BodyValue payload) ;;
    match r with
    | Err err => ret (None, None, Some err)
    | Ok request =>
        let report := new_IssueArchivalSyncResponseScheme in
        out <- c_Call i request (Some report) ;;
        match out with
        | (_, response, Some err) => ret (None, response, Some err)
        | (filled, response, None) =>
            (* report is the pointer handed to Call: never nil *)
            ret (Some (default report filled), response, None)
        end
    end.

Definition Export (i : internalIssueArchivalImpl) (ctx : option context_Context)
    (payload : option IssueArchivalExportPayloadScheme)
  : M (string * option ResponseScheme * option error) :=
  let endpoint := "rest/api/" +:+ version i +:+ "/issues/archive/export" in
  r <- c_NewRequest i ctx http.MethodPut endpoint "" (BodyValue payload) ;;
  match r with
  | Err err => ret ("", None, Some err)
  | Ok request =>
      out <- c_Call (D := Empty_set) i request None ;;
      match out with
      | (_, response, Some err) => ret ("", response, Some err)
      | (_, response, None) => ret ("", response, None)
      end
  end.

(** The methods of [IssueArchivalService]: each hands its arguments to the
    method of the same name of [internalClient]. *)
Definition IssueArchivalService_Preserve (i : IssueArchivalService)
    (ctx : option context_Context) (issueIdsOrKeys : list string)
  : M (option IssueArchivalSyncResponseScheme * option ResponseScheme * option error) :=
  Preserve (internalClient i) ctx issueIdsOrKeys.

Definition IssueArchivalService_PreserveByJQL (i : IssueArchivalService)
    (ctx : option context_Context) (jql : string)
  : M (string * option ResponseScheme * option error) :=
  PreserveByJQL (internalClient i) ctx jql.

Definition IssueArchivalService_Restore (i : IssueArchivalService)
    (ctx : option context_Context) (issueIdsOrKeys : list string)
  : M (option IssueArchivalSyncResponseScheme * option ResponseScheme * option error) :=
  Restore (internalClient i) ctx issueIdsOrKeys.

Definition IssueArchivalService_Export (i : IssueArchivalService)
    (ctx : option context_Context) (payload : option IssueArchivalExportPayloadScheme)
  : M (string * option ResponseScheme * option error) :=
  Export (internalClient i) ctx payload.

End archival.
End internal.

(** ** [jira/v3/api_client_impl.go] *)
Module v3.
Import service.

Definition APIVersion : string := "3".

Section client.
Context `{P : Platform}.

(** The client's configuration.  Its resource services ([Audit], ...,
    [Archival]) hold nothing but a pointer back to the client and the API
    version, so they are rebuilt from the client where they are used
    (see [Archival]). *)
Record Client := {
  HTTP : HTTPClient;
  Auth : common.Authentication;
  OAuth : option OAuth2Service;
  Site : url_URL;
}.

Definition setHTTP (h : HTTPClient) (c : Client) : Client :=
  {| HTTP := h; Auth := Auth c; OAuth := OAuth c; Site := Site c |}.
Definition setAuth (a : common.Authentication) (c : Client) : Client :=
  {| HTTP := HTTP c; Auth := a; OAuth := OAuth c; Site := Site c |}.
Definition setOAuth (o : option OAuth2Service) (c : Client) : Client :=
  {| HTTP := HTTP c; Auth := Auth c; OAuth := o; Site := Site c |}.

(** [type ClientOption func(c *Client) error]: the client after the call
    (it is updated in place, also when the option fails) and the
    error. *)
Definition ClientOption : Type := Client -> Client * option error.

Definition WithOAuth (config : option OAuth2Config) : ClientOption :=
  fun c =>
    match config with
    | None => (c, Some (Errorf "oauth config cannot be nil"))
    | Some config =>
        match oauth2_NewOAuth2Service (HTTP c) config with
        | inl err =>
            (c, Some (ErrorfWrap "failed to create OAuth service: %w"
                        (OAuth2Error err)))
        | inr oauthService => (setOAuth (Some oauthService) c, None)
        end
    end.

Definition WithAutoRenewalToken (token : option common.OAuth2Token) : ClientOption :=
  fun c =>
    match token with
    | None => (c, Some (Errorf "token cannot be nil for auto-renewal"))
    | Some token =>
        match OAuth c with
        | None =>
            (c, Some (Errorf
               "OAuth must be configured before enabling auto-renewal (use WithOAuth first)"))
        | Some oauth =>
            match oauth2_SetupTokenSourcesWithStorage token oauth (HTTP c) with
            | inl err =>
                (c, Some (ErrorfWrap "failed to setup token sources: %w"
                            (OAuth2Error err)))
            | inr (_, reuseSource) =>
                let base := oauth2_ExtractBaseTransport (HTTP c) in
                let c :=
                  match oauth2_ExtractWrapper (HTTP c) with
                  | Some original => setHTTP original c
                  | None => c
                  end in
                let c := setHTTP (oauth2_CreateOAuthTransport reuseSource base) c in
                let c :=
                  setAuth (common.SetBearerToken (common.AccessToken token) (Auth c)) c in
                (c, None)
            end
        end
    end.

Definition WithOAuthWithAutoRenewal (config : option OAuth2Config)
    (token : option common.OAuth2Token) : ClientOption :=
  fun c =>
    match WithOAuth config c with
    | (c, Some err) => (c, Some err)
    | (c, None) => WithAutoRenewalToken token c
    end.

Definition WithTokenStore (store : option TokenStore) : ClientOption :=
  fun c =>
    match store with
    | None => (c, Some (Errorf "token store cannot be nil"))
    | Some store => (setHTTP (oauth2_WrapWithStore (HTTP c) store) c, None)
    end.

Definition WithTokenCallback (callback : option TokenCallback) : ClientOption :=
  fun c =>
    match callback with
    | None => (c, Some (Errorf "token callback cannot be nil"))
    | Some callback =>
        (setHTTP (oauth2_WrapWithCallback (HTTP c) callback) c, None)
    end.

(** The loop of [New] over its options: it stops at the first error. *)
Fixpoint applyOptions (options : list ClientOption) (client : Client)
  : Client * option error :=
  match options with
  | [] => (client, None)
  | option :: options =>
      match option client with
      | (client, Some err) => (client, Some err)
      | (client, None) => applyOptions options client
      end
  end.

Definition New (httpClient : option HTTPClient) (site : string)
    (options : list ClientOption) : option Client * option error :=
  let httpClient := default http_DefaultClient httpClient in
  if decide (site = "") then (None, Some ErrNoSite)
  else
    let site := if HasSuffix site "/" then site else site +:+ "/" in
    match url_Parse site with
    | inl err => (None, Some (URLError err))
    | inr u =>
        let client :=
          {| HTTP := httpClient; Site := u;
             Auth := common.NewAuthenticationService; OAuth := None |} in
        match internal_NewServices APIVersion with
        | Some err => (None, Some err)
        | None =>
            match applyOptions options client with
            | (_, Some err) => (None, Some err)
            | (client, None) => (Some client, None)
            end
        end
    end.

(** [http.NewRequestWithContext(ctx, method, url, body)], in the order of
    its checks: an empty method means GET; the method must be valid; the
    context must not be nil; the URL text is parsed, and an empty port is
    removed from its host.  The new request has no header. *)
Definition http_NewRequestWithContext (ctx : option context_Context) (method url : string)
    (body : bytes) : result http.Request :=
  let method := if decide (method = "") then "GET" else method in
  if negb (http_validMethod method) then
    Err (HTTPError ("net/http: invalid method " +:+ strconv_Quote method))
  else
    match ctx with
    | None => Err (HTTPError "net/http: nil Context")
    | Some _ =>
        match url_Parse url with
        | inl err => Err (URLError err)
        | inr u =>
            Ok {| http.Method := method;
                  http.URL := url_String (http_removeEmptyPort u);
                  http.Header := ∅; http.Body := body |}
        end
    end.

Definition NewRequest {V} `{JSONEncode V} (c : Client) (ctx : option context_Context)
    (method urlStr contentType : string) (body : Body V)
  : result http.Request :=
  match url_Parse urlStr with
  | inl err => Err (URLError err)
  | inr rel =>
      let u := url_ResolveReference (Site c) rel in
      let encoded : string + bytes :=
        match body with
        | BodyNil => inr ""
        | _ => Encode body
        end in
      match encoded with
      | inl err => Err (JSONError err)
      | inr buf =>
          let buf :=
            match body with
            | BodyBuffer attachBuffer => attachBuffer
            | _ => buf
            end in
          match http_NewRequestWithContext ctx method (url_String u) buf with
          | Err err => Err err
          | Ok req =>
              let h := http.Header req in
              let h := Header_Set "Accept" "application/json" h in
              let h :=
                match body with
                | BodyNil => h
                | _ => Header_Set "Content-Type" "application/json" h
                end in
              let h :=
                if decide (contentType = "") then h
                else Header_Set "X-Atlassian-Token" "no-check"
                       (Header_Set "Content-Type" contentType h) in
              let req := http.setHeader h req in
              let req :=
                if common.HasBasicAuth (Auth c) then
                  let (username, password) := common.GetBasicAuth (Auth c) in
                  http.SetBasicAuth username password req
                else req in
              let req :=
                if common.HasUserAgent (Auth c) then
                  http.setHeader
                    (Header_Set "User-Agent" (common.GetUserAgent (Auth c))
                       (http.Header req)) req
                else req in
              let req :=
                if bool_decide (common.GetBearerToken (Auth c) ≠ "")
                   && negb (common.HasBasicAuth (Auth c)) then
                  http.setHeader
                    (Header_Add "Authorization"
                       ("Bearer " +:+ common.GetBearerToken (Auth c))
                       (http.Header req)) req
                else req in
              Ok req
          end
      end
  end.

Definition processResponse {D} `{JSONUnmarshal D} (response : http.Response)
    (structure : option D) : CallResult D :=
  let res :=
    {| Response := response;
       Code := http.StatusCode response;
       Endpoint := http.URL (http.FinalRequest response);
       Method := http.Method (http.FinalRequest response);
       Bytes := "" |} in
  match http.ReadAll response with
  | (_, Some err) => (structure, Some res, Some (IOError err))
  | (responseAsBytes, None) =>
      let res := Bytes_Write responseAsBytes res in
      let wasSuccess :=
        (200 <=? http.StatusCode response) && (http.StatusCode response <? 300) in
      if negb wasSuccess then
        if decide (http.StatusCode response = http.StatusNotFound) then
          (structure, Some res, Some ErrNotFound)
        else if decide (http.StatusCode response = http.StatusUnauthorized) then
          (structure, Some res, Some ErrUnauthorized)
        else if decide (http.StatusCode response = http.StatusInternalServerError) then
          (structure, Some res, Some ErrInternal)
        else if decide (http.StatusCode response = http.StatusBadRequest) then
          (structure, Some res, Some ErrBadRequest)
        else
          (structure, Some res, Some ErrInvalidStatusCode)
      else
        match structure with
        | Some d =>
            match json_Unmarshal responseAsBytes d with
            | (d, Some err) => (Some d, Some res, Some (JSONError err))
            | (d, None) => (Some d, Some res, None)
            end
        | None => (None, Some res, None)
        end
  end.

Definition Call {D} `{JSONUnmarshal D} (c : Client) (request : http.Request)
    (structure : option D) : CallResult D :=
  match http_Do (HTTP c) request with
  | inl err => (structure, None, Some (HTTPError err))
  | inr response => processResponse response structure
  end.

(** The client as a [service.Connector]. *)
Definition connector (c : Client) : Connector :=
  {| service.NewRequest := fun V _ => NewRequest c;
     service.Call := fun D _ => Call c |}.

(** [client.Archival], as [New] builds it. *)
Definition Archival (c : Client) : internal.internalIssueArchivalImpl :=
  internal.internalClient
    (internal.NewIssueArchivalService (connector c) APIVersion).

End client.
End v3.

(** ** A concrete platform

    Transports are scripted: an HTTP client is the function from the request
    it is given to what the exchange produces.  URLs are their text, and a
    relative reference without a leading slash resolved against a base that
    ends in a slash is their concatenation; the hosts of the scenarios name
    no port.  The texts of the scenarios need no escaping in JSON, and their
    payload maps hold a single key. *)
Module Demo.

Definition newline : string := String "010"%char "".

Definition quote (s : string) : string :=
  String "034"%char s +:+ String "034"%char "".

Fixpoint join (sep : string) (l : list string) : string :=
  match l with
  | [] => ""
  | [x] => x
  | x :: r => x +:+ sep +:+ join sep r
  end.

(** A [[]string]: the empty list stands for the nil slice. *)
Definition encodeStrings (l : list string) : string :=
  match l with
  | [] => "null"
  | _ => "[" +:+ join "," (quote <$> l) +:+ "]"
  end.

Definition encodeMapValue (v : MapValue) : string :=
  match v with
  | MString s => quote s
  | MStrings l => encodeStrings l
  end.

Definition encodeMap (m : gmap string MapValue) : string + bytes :=
  inr ("{" +:+ join "," ((fun kv => quote kv.1 +:+ ":" +:+ encodeMapValue kv.2)
                           <$> map_to_list m) +:+ "}" +:+ newline).

Definition field (name value : string) : string := quote name +:+ ":" +:+ value.

(** Both fields of a date range are [omitempty]. *)
Definition encodeDateRange (r : DateRangeFilterRequestScheme) : string :=
  "{" +:+ join ","
            ((if decide (DateAfter r = "") then []
              else [field "dateAfter" (quote (DateAfter r))])
             ++ (if decide (DateBefore r = "") then []
                 else [field "dateBefore" (quote (DateBefore r))]))%list
  +:+ "}".

(** The export payload: its fields in the order of the struct, the date
    range only when it is not nil. *)
Definition encodeExport (p : option IssueArchivalExportPayloadScheme)
  : string + bytes :=
  match p with
  | None => inr ("null" +:+ newline)
  | Some p =>
      inr ("{" +:+ join ","
                     ([field "archivedBy" (encodeStrings (ArchivedBy p))]
                      ++ match ArchivedDateRange p with
                         | Some r => [field "archivedDateRange" (encodeDateRange r)]
                         | None => []
                         end
                      ++ [field "issueTypes" (encodeStrings (IssueTypes p));
                          field "projects" (encodeStrings (Projects p));
                          field "reporters" (encodeStrings (Reporters p))])%list
           +:+ "}" +:+ newline)
  end.

(** A report of two updated issues. *)
Definition reportJSON : bytes := "{" +:+ quote "numberOfIssuesUpdated" +:+ ":2}".

(** Decoding a report, for the bodies of the scenarios: the empty object
    fills in nothing, [reportJSON] sets the number of updated issues, the
    empty text is an unexpected end of input; any other body is taken to be
    malformed at its first character. *)
Definition decodeReport (data : bytes) (d : IssueArchivalSyncResponseScheme)
  : IssueArchivalSyncResponseScheme * option string :=
  if decide (data = "{}") then (d, None)
  else if decide (data = reportJSON) then
    ({| Errors := Errors d; NumberOfIssuesUpdated := 2 |}, None)
  else
    match data with
    | "" => (d, Some "unexpected end of JSON input")
    | String a _ =>
        (d, Some ("invalid character '" +:+ String a "' looking for beginning of value"))
    end.

Definition Transport : Type := http.Request -> string + http.Response.

Definition platform : Platform := {|
  context_Context := unit;
  strconv_Quote := quote;
  url_URL := string;
  url_Parse := fun s => if decide (s = ":") then inl "missing protocol scheme" else inr s;
  url_ResolveReference := fun base rel => base +:+ rel;
  url_String := fun u => u;
  HTTPClient := Transport;
  http_DefaultClient := fun _ => inl "no such host";
  http_Do := fun h request => h request;
  http_validMethod := fun method => bool_decide (method ∈ ["GET"; "POST"; "PUT"]);
  http_removeEmptyPort := fun u => u;
  json_payload := encodeMap;
  json_export := encodeExport;
  json_report := decodeReport;
  OAuth2Config := bool;
  OAuth2Service := unit;
  TokenSource := unit;
  RoundTripper := Transport;
  TokenStore := unit;
  TokenCallback := unit;
  oauth2_NewOAuth2Service :=
    fun _ config => if config then inr tt else inl "missing client id";
  oauth2_SetupTokenSourcesWithStorage :=
    fun token _ _ =>
      if decide (common.AccessToken token = "") then inl "empty access token"
      else inr (tt, tt);
  oauth2_ExtractBaseTransport := fun h => h;
  oauth2_ExtractWrapper := fun _ => None;
  oauth2_CreateOAuthTransport := fun _ base => base;
  oauth2_WrapWithStore := fun h _ => h;
  oauth2_WrapWithCallback := fun h _ => h;
  internal_NewServices := fun _ => None;
|}.
#[local] Existing Instance platform.

(** The answer of a server that meets every request with the given status
    and body; the exchange ends at [location]. *)
Definition respond (status : Z) (location : string) (body : bytes * option string)
    (request : http.Request) : http.Response :=
  {| http.StatusCode := status;
     http.FinalRequest :=
       {| http.Method := http.Method request; http.URL := location;
          http.Header := http.Header request; http.Body := "" |};
     http.ReadAll := body |}.

Definition server (status : Z) (location : string) (body : bytes * option string)
  : Transport :=
  fun request => inr (respond status location body request).

Definition site : string := "https://x.atlassian.net/".

Definition client (h : Transport) (a : common.Authentication) : v3.Client :=
  {| v3.HTTP := h; v3.Auth := a; v3.OAuth := None; v3.Site := site |}.

Definition token : common.OAuth2Token :=
  {| common.AccessToken := "at-1"; common.RefreshToken := "rt-1";
     common.TokenType := "Bearer"; common.Expiry := None |}.

(** Scenarios. *)
Definition anonymous : common.Authentication := common.NewAuthenticationService.

Definition bothCredentials : common.Authentication :=
  common.SetUserAgent "go-atlassian"
    (common.SetBearerToken "tok-1"
       (common.SetBasicAuth "mail@example.com" "secret" anonymous)).

Definition bearerOnly : common.Authentication :=
  common.SetBearerToken "tok-1" anonymous.

Definition taskURL : string := "https://x.atlassian.net/rest/api/3/task/10042".
Definition archiveURL : string := "https://x.atlassian.net/rest/api/3/issue/archive".

(** The scenario of the specification: status 204, empty body, an exchange
    that ends at a URL whose last segment is 10042. *)
Definition noContentClient : v3.Client :=
  client (server 204 taskURL ("", None)) anonymous.

(** A server that answers 202 with the URL of the task as its body. *)
Definition acceptedClient : v3.Client :=
  client (server 202 archiveURL (taskURL, None)) anonymous.

(** A 404 answer, complete, and one that breaks off while its body is
    read. *)
Definition notFoundBody : bytes * option string := ("Issue does not exist", None).
Definition brokenNotFoundBody : bytes * option string :=
  ("Issue does not ex", Some "unexpected EOF").
Definition notFoundClient : v3.Client :=
  client (server 404 archiveURL notFoundBody) anonymous.
Definition brokenNotFoundClient : v3.Client :=
  client (server 404 archiveURL brokenNotFoundBody) anonymous.

(** A 200 answer with a report, one that breaks off while its body is
    read, one whose body is no JSON and one with an empty report. *)
Definition reportBody : bytes * option string := (reportJSON, None).
Definition brokenReportBody : bytes * option string := ("{", Some "unexpected EOF").
Definition htmlBody : bytes * option string := ("<html>", None).
Definition reportClient : v3.Client :=
  client (server 200 archiveURL reportBody) anonymous.
Definition brokenReportClient : v3.Client :=
  client (server 200 archiveURL brokenReportBody) anonymous.
Definition htmlClient : v3.Client :=
  client (server 200 archiveURL htmlBody) anonymous.
Definition emptyReportClient : v3.Client :=
  client (server 200 archiveURL ("{}", None)) anonymous.

(** [context.Background()]. *)
Definition background : option context_Context := Some tt.

Definition someRequest : http.Request :=
  {| http.Method := "PUT"; http.URL := archiveURL;
     http.Header := ∅; http.Body := "" |}.

Definition jqlPayload : Body (gmap string MapValue) :=
  BodyValue (<["jql" := MString "project = X"]> ∅).

Definition exportPayload : option IssueArchivalExportPayloadScheme :=
  Some {| ArchivedBy := []; ArchivedDateRange := None; IssueTypes := [];
          Projects := ["KP"]; Reporters := [] |}.

(** Requests built on the concrete platform. *)
Definition builtWith (a : common.Authentication) (contentType : string)
    (body : Body (gmap string MapValue)) : result http.Request :=
  v3.NewRequest (client (server 200 archiveURL reportBody) a) background
    "POST" "rest/api/3/issue/archive" contentType body.

Definition requestOf (r : result http.Request) : http.Request :=
  match r with Ok req => req | Err _ => someRequest end.

Definition withStore : v3.ClientOption := v3.WithTokenStore (Some tt).
Definition withOAuth : v3.ClientOption := v3.WithOAuth (Some true).

(** A client on which [WithOAuth] has succeeded. *)
Definition oauthClient : v3.Client :=
  {| v3.HTTP := server 200 archiveURL reportBody; v3.Auth := anonymous;
     v3.OAuth := Some tt; v3.Site := site |}.

Definition oauthService : OAuth2Service := tt.
Definition tokenSources : TokenSource * TokenSource := (tt, tt).

End Demo.

(** ** The vocabulary of the specification *)
Module Spec.

(** "Status in [200,300) is success." *)
Definition success (status : Z) : Prop := 200 <= status < 300.

(** "Non-success status is mapped to a fixed taxonomy: 404 to not-found,
    401 to unauthorized, 500 to internal, 400 to bad-request, anything else
    to generic invalid-status." *)
Definition statusError (status : Z) : error :=
  if decide (status = 404) then ErrNotFound
  else if decide (status = 401) then ErrUnauthorized
  else if decide (status = 500) then ErrInternal
  else if decide (status = 400) then ErrBadRequest
  else ErrInvalidStatusCode.

(** The errors of the HTTP-status taxonomy. *)
Definition isStatusError (e : error) : Prop :=
  e = ErrNotFound \/ e = ErrUnauthorized \/ e = ErrInternal
  \/ e = ErrBadRequest \/ e = ErrInvalidStatusCode.

(** The populated envelope: status code, endpoint, method and the buffered
    body bytes of a response. *)
Definition envelope (response : http.Response) (data : bytes) : ResponseScheme :=
  {| Response := response;
     Code := http.StatusCode response;
     Endpoint := http.URL (http.FinalRequest response);
     Method := http.Method (http.FinalRequest response);
     Bytes := data |}.

(** The values of a header of a request. *)
Definition header (key : string) (req : http.Request) : option (list string) :=
  http.Header req !! key.

End Spec.

(** The vocabulary of the specification for client options. *)
Section spec_options.
Context `{P : Platform}.

(** An option that does not install OAuth2: applied to a client without an
    OAuth2 service, it leaves the client without one. *)
Definition leavesOAuthUnset (option : v3.ClientOption) : Prop :=
  forall c, v3.OAuth c = None -> v3.OAuth (option c).1 = None.

(** The client [New] has built when it starts applying its options. *)
Definition freshClient (httpClient : option HTTPClient) (u : url_URL) : v3.Client :=
  {| v3.HTTP := default http_DefaultClient httpClient;
     v3.Auth := common.NewAuthenticationService;
     v3.OAuth := None;
     v3.Site := u |}.

(** The error of the auto-renewal option on a client without OAuth2. *)
Definition autoRenewalError (token : option common.OAuth2Token) : error :=
  match token with
  | None => Errorf "token cannot be nil for auto-renewal"
  | Some _ =>
      Errorf "OAuth must be configured before enabling auto-renewal (use WithOAuth first)"
  end.

(** The site as [New] parses it: with a slash at its end. *)
Definition normalizedSite (site : string) : string :=
  if HasSuffix site "/" then site else site +:+ "/".

(** The options the package provides. *)
Inductive Provided : v3.ClientOption -> Prop :=
  | Provided_WithOAuth config : Provided (v3.WithOAuth config)
  | Provided_WithAutoRenewalToken token : Provided (v3.WithAutoRenewalToken token)
  | Provided_WithOAuthWithAutoRenewal config token :
      Provided (v3.WithOAuthWithAutoRenewal config token)
  | Provided_WithTokenStore store : Provided (v3.WithTokenStore store)
  | Provided_WithTokenCallback callback : Provided (v3.WithTokenCallback callback).

(** The credentials an option of the package cannot reach: basic-auth and
    user agent. *)
Definition sameFixedCredentials (a b : common.Authentication) : Prop :=
  common.HasBasicAuth a = common.HasBasicAuth b
  /\ common.GetBasicAuth a = common.GetBasicAuth b
  /\ common.HasUserAgent a = common.HasUserAgent b
  /\ common.GetUserAgent a = common.GetUserAgent b.

(** The names of the headers [NewRequest] may set. *)
Definition requestHeaderNames : gset string :=
  {[ "Accept"; "Content-Type"; "X-Atlassian-Token"; "Authorization"; "User-Agent" ]}.

(** The archival service of a client, as [New] builds it. *)
Definition archivalOf (c : v3.Client) : internal.IssueArchivalService :=
  internal.NewIssueArchivalService (v3.connector c) v3.APIVersion.

(** A method that used its connector once: it asked for one request, with
    the context it was given, and, if it got one, called with that request
    and nothing else. *)
Definition builtAndSent {V} `{JSONEncode V} (conn : service.Connector)
    (ctx : option context_Context) (method endpoint : string) (body : Body V)
    (log log' : list service.Event) : Prop :=
  match service.NewRequest conn V ctx method endpoint "" body with
  | Err _ => log' = (log ++ [service.EvNewRequest ctx method endpoint ""])%list
  | Ok request =>
      log' = (log ++ [service.EvNewRequest ctx method endpoint "";
                      service.EvCall request])%list
  end.

(** The payloads of the archival methods. *)
Definition issuesPayload (issueIdsOrKeys : list string) : gmap string MapValue :=
  <["issueIdsOrKeys" := MStrings issueIdsOrKeys]> ∅.

Definition jqlPayload (jql : string) : gmap string MapValue :=
  <["jql" := MString jql]> ∅.

End spec_options.

(** * Properties *)

Example path_Base_empty : path_Base "" = ".".
Proof. reflexivity. Qed.
Example path_Base_slashes : path_Base "///" = "/".
Proof. reflexivity. Qed.
Example path_Base_dir : path_Base "a/b/" = "b".
Proof. reflexivity. Qed.
Example path_Base_plain : path_Base "10042" = "10042".
Proof. reflexivity. Qed.
Example path_Base_url :
  path_Base "https://x.atlassian.net/rest/api/3/task/10042" = "10042".
Proof. reflexivity. Qed.
Example base64_rfc7617 :
  base64_EncodeToString "Aladdin:open sesame" = "QWxhZGRpbjpvcGVuIHNlc2FtZQ==".
Proof. reflexivity. Qed.
Example base64_padding : base64_EncodeToString "ab" = "YWI=".
Proof. reflexivity. Qed.
Example HasSuffix_slash : HasSuffix "https://x.atlassian.net/" "/" = true.
Proof. reflexivity. Qed.
Example HasSuffix_no_slash : HasSuffix "https://x.atlassian.net" "/" = false.
Proof. reflexivity. Qed.

(** ** [path.Base] *)
Section path_base.

Lemma list_ascii_of_string_app (s t : string) :
  list_ascii_of_string (s +:+ t)
  = (list_ascii_of_string s ++ list_ascii_of_string t)%list.
Proof. induction s as [|a s IH]; simpl; [reflexivity | now rewrite IH]. Qed.

Lemma dropSlashes_head (a : ascii) (r : list ascii) :
  a ≠ slash -> dropSlashes (a :: r) = a :: r.
Proof.
  intros Ha. simpl. destruct (Ascii.eqb a slash) eqn:E; [|reflexivity].
  apply Ascii.eqb_eq in E. contradiction.
Qed.

Lemma untilSlash_app (l r : list ascii) :
  slash ∉ l -> untilSlash (l ++ slash :: r) = l.
Proof.
  induction l as [|a l IH]; intros Hl; simpl.
  - reflexivity.
  - destruct (Ascii.eqb a slash) eqn:E.
    + apply Ascii.eqb_eq in E. subst a. exfalso. apply Hl. left.
    + f_equal. apply IH. intros Hin. apply Hl. now right.
Qed.

Lemma untilSlash_no_slash (l : list ascii) : slash ∉ untilSlash l.
Proof.
  induction l as [|a l IH]; simpl.
  - apply not_elem_of_nil.
  - destruct (Ascii.eqb a slash) eqn:E.
    + apply not_elem_of_nil.
    + intros Hin. apply elem_of_cons in Hin as [Heq|Hin]; [|now apply IH].
      rewrite <- Heq, Ascii.eqb_refl in E. discriminate E.
Qed.

(** The last element: a non-empty segment without slashes that follows a
    slash is what [path.Base] returns. *)
Lemma path_Base_last_segment (pre seg : string) :
  seg ≠ "" ->
  slash ∉ list_ascii_of_string seg ->
  path_Base (pre +:+ "/" +:+ seg) = seg.
Proof.
  intros Hne Hns.
  assert (Hl : list_ascii_of_string (pre +:+ "/" +:+ seg)
               = (list_ascii_of_string pre ++ slash :: list_ascii_of_string seg)%list).
  { now rewrite !list_ascii_of_string_app. }
  destruct (rev (list_ascii_of_string seg)) as [|a r] eqn:Er.
  { apply (f_equal (@rev ascii)) in Er. rewrite rev_involutive in Er.
    destruct seg; [contradiction | discriminate Er]. }
  assert (Hr : slash ∉ a :: r).
  { rewrite <- Er. intros Hin. apply Hns.
    apply list_elem_of_In. apply in_rev. now apply list_elem_of_In. }
  assert (Ha : a ≠ slash).
  { intros ->. apply Hr. left. }
  assert (Hrev : rev (list_ascii_of_string (pre +:+ "/" +:+ seg))
                 = (a :: (r ++ slash :: rev (list_ascii_of_string pre)))%list).
  { rewrite Hl, rev_app_distr. cbn [rev]. rewrite Er, <- app_assoc.
    reflexivity. }
  unfold path_Base.
  destruct (pre +:+ "/" +:+ seg) as [|a0 s0] eqn:Epath.
  { destruct (list_ascii_of_string pre); discriminate Hl. }
  rewrite Hrev, dropSlashes_head by exact Ha.
  change (a :: (r ++ slash :: rev (list_ascii_of_string pre)))%list
    with ((a :: r) ++ slash :: rev (list_ascii_of_string pre))%list.
  rewrite untilSlash_app by exact Hr.
  change (string_of_list_ascii (rev (a :: r)) = seg).
  rewrite <- Er, rev_involutive. apply string_of_list_ascii_of_string.
Qed.

End path_base.

(** ** The response classifier: [Call] and [processResponse] *)
Section classifier.
Context `{P : Platform}.
Import service.

Lemma wasSuccess_true (status : Z) :
  (200 <=? status) && (status <? 300) = true <-> Spec.success status.
Proof. unfold Spec.success. rewrite andb_true_iff. lia. Qed.

Lemma statusError_isStatusError (status : Z) :
  Spec.isStatusError (Spec.statusError status).
Proof.
  unfold Spec.statusError, Spec.isStatusError.
  repeat case_decide; tauto.
Qed.

(** A response whose body cannot be read: the read error is returned with
    an envelope that has no body bytes, whatever the status. *)
Lemma processResponse_read_error {D} `{JSONUnmarshal D}
    (response : http.Response) (structure : option D) (partial : bytes) (err : string) :
  http.ReadAll response = (partial, Some err) ->
  v3.processResponse response structure
  = (structure, Some (Spec.envelope response ""), Some (IOError err)).
Proof. intros Hread. unfold v3.processResponse. now rewrite Hread. Qed.

(** A response with a status outside [200,300) whose body was read. *)
Lemma processResponse_failure {D} `{JSONUnmarshal D}
    (response : http.Response) (structure : option D) (data : bytes) :
  http.ReadAll response = (data, None) ->
  ~ Spec.success (http.StatusCode response) ->
  v3.processResponse response structure
  = (structure, Some (Spec.envelope response data),
     Some (Spec.statusError (http.StatusCode response))).
Proof.
  intros Hread Hfail. unfold v3.processResponse. rewrite Hread.
  destruct ((200 <=? http.StatusCode response)
            && (http.StatusCode response <? 300)) eqn:E.
  { apply wasSuccess_true in E. contradiction. }
  cbn [negb]. unfold Spec.statusError, http.StatusNotFound,
    http.StatusUnauthorized, http.StatusInternalServerError,
    http.StatusBadRequest.
  repeat case_decide; reflexivity.
Qed.

(** A response with a status in [200,300) whose body was read. *)
Lemma processResponse_success {D} `{JSONUnmarshal D}
    (response : http.Response) (structure : option D) (data : bytes) :
  http.ReadAll response = (data, None) ->
  Spec.success (http.StatusCode response) ->
  v3.processResponse response structure
  = match structure with
    | Some d =>
        (Some (json_Unmarshal data d).1, Some (Spec.envelope response data),
         JSONError <$> (json_Unmarshal data d).2)
    | None => (None, Some (Spec.envelope response data), None)
    end.
Proof.
  intros Hread Hok. unfold v3.processResponse. rewrite Hread.
  apply wasSuccess_true in Hok. rewrite Hok. cbn [negb].
  destruct structure as [d|]; [|reflexivity].
  destruct (json_Unmarshal data d) as [d' [e|]]; reflexivity.
Qed.

(** [processResponse] always returns an envelope. *)
Lemma processResponse_envelope {D} `{JSONUnmarshal D}
    (response : http.Response) (structure : option D) :
  exists res, (v3.processResponse response structure).1.2 = Some res
              /\ Code res = http.StatusCode response
              /\ Endpoint res = http.URL (http.FinalRequest response)
              /\ Method res = http.Method (http.FinalRequest response).
Proof.
  destruct (http.ReadAll response) as [data [err|]] eqn:Hread.
  - rewrite (processResponse_read_error _ _ data err Hread). cbn. eauto.
  - destruct (decide (Spec.success (http.StatusCode response))) as [Hok|Hko].
    + rewrite (processResponse_success _ _ data Hread Hok).
      destruct structure; cbn; eauto.
    + rewrite (processResponse_failure _ _ data Hread Hko). cbn. eauto.
Qed.

(** A call that reports no error went through a complete exchange: the
    transport produced a response, its body was read to the end and its
    status is in [200,300). *)
Lemma Call_no_error {D} `{JSONUnmarshal D} (c : v3.Client)
    (request : http.Request) (structure dest : option D)
    (response : option ResponseScheme) :
  v3.Call c request structure = (dest, response, None) ->
  exists httpResponse data,
    http_Do (v3.HTTP c) request = inr httpResponse
    /\ http.ReadAll httpResponse = (data, None)
    /\ Spec.success (http.StatusCode httpResponse)
    /\ response = Some (Spec.envelope httpResponse data).
Proof.
  unfold v3.Call. destruct (http_Do (v3.HTTP c) request) as [err|httpResponse];
    [discriminate|].
  intros Hcall. exists httpResponse.
  destruct (http.ReadAll httpResponse) as [data [err|]] eqn:Hread.
  { rewrite (processResponse_read_error _ _ data err Hread) in Hcall.
    discriminate Hcall. }
  exists data.
  destruct (decide (Spec.success (http.StatusCode httpResponse))) as [Hok|Hko].
  - rewrite (processResponse_success _ _ data Hread Hok) in Hcall.
    destruct structure as [d|]; inversion Hcall; subst; auto.
  - rewrite (processResponse_failure _ _ data Hread Hko) in Hcall.
    discriminate Hcall.
Qed.

End classifier.

(** ** The request pipeline: [NewRequest] *)
Section request.
Context `{P : Platform}.

(** What a successful [NewRequest] went through: the relative URL parsed,
    the body (if any) was encoded, and [net/http] accepted the method, the
    context and the text of the resolved URL. *)
Lemma NewRequest_Ok_inv {V} `{JSONEncode V} (c : v3.Client)
    (ctx : option context_Context) (method urlStr contentType : string)
    (body : Body V) (req : http.Request) :
  v3.NewRequest c ctx method urlStr contentType body = Ok req ->
  exists rel buf u,
    url_Parse urlStr = inr rel
    /\ match body with BodyNil => inr "" | _ => Encode body end = inr buf
    /\ http_validMethod (if decide (method = "") then "GET" else method) = true
    /\ ctx <> None
    /\ url_Parse (url_String (url_ResolveReference (v3.Site c) rel)) = inr u.
Proof.
  unfold v3.NewRequest, v3.http_NewRequestWithContext.
  destruct (url_Parse urlStr) as [e|rel]; [discriminate|].
  destruct (match body with BodyNil => inr "" | _ => Encode body end)
    as [e|buf] eqn:Eenc; [discriminate|].
  cbv zeta.
  destruct (http_validMethod _) eqn:Evalid; [|discriminate].
  destruct ctx as [ctx|]; [|discriminate].
  destruct (url_Parse (url_String _)) as [e|u] eqn:Eurl; [discriminate|].
  intros _. exists rel, buf, u. auto.
Qed.

(** Conversely, [NewRequest] builds a request whenever these steps
    succeed. *)
Lemma NewRequest_succeeds {V} `{JSONEncode V} (c : v3.Client)
    (ctx : option context_Context) (method urlStr contentType : string)
    (body : Body V) (rel u : url_URL)
    (buf : bytes) :
  url_Parse urlStr = inr rel ->
  match body with BodyNil => inr "" | _ => Encode body end = inr buf ->
  http_validMethod (if decide (method = "") then "GET" else method) = true ->
  ctx <> None ->
  url_Parse (url_String (url_ResolveReference (v3.Site c) rel)) = inr u ->
  exists req, v3.NewRequest c ctx method urlStr contentType body = Ok req.
Proof.
  intros Hparse Henc Hvalid Hctx Hurl.
  unfold v3.NewRequest, v3.http_NewRequestWithContext.
  rewrite Hparse, Henc. cbv zeta. rewrite Hvalid, Hurl.
  destruct ctx; [|contradiction]. cbn. eauto.
Qed.

Ltac NewRequest_run H :=
  unfold v3.NewRequest, v3.http_NewRequestWithContext in H;
  match type of H with
  | context [match url_Parse ?s with inl _ => _ | inr _ => _ end] =>
      destruct (url_Parse s) as [?|?] in H; [discriminate H|]
  end;
  match type of H with
  | context [match ?enc with inl _ => Err (JSONError _) | inr _ => _ end] =>
      let E := fresh "Eenc" in
      destruct enc as [?|?] eqn:E in H; [discriminate H|]
  end;
  cbv zeta in H;
  destruct (http_validMethod _) in H; [|discriminate H];
  match type of H with
  | context [match ?ctx with Some _ => _ | None => _ end] =>
      destruct ctx as [?|] in H; [|discriminate H]
  end;
  destruct (url_Parse (url_String _)) as [?|?] in H; [discriminate H|];
  cbn [negb] in H;
  injection H as H; subst.

Ltac header_lookup :=
  unfold Spec.header, http.SetBasicAuth, http.setHeader, Header_Values,
    Header_Add, Header_Set;
  cbn [http.Header http.Method http.URL http.Body];
  repeat first
    [ rewrite lookup_insert_eq
    | rewrite lookup_insert_ne by discriminate
    | rewrite lookup_empty ];
  cbn [default app].

Lemma NewRequest_header_Authorization {V} `{JSONEncode V} (c : v3.Client)
    (ctx : option context_Context) (method urlStr contentType : string)
    (body : Body V) (req : http.Request) :
  v3.NewRequest c ctx method urlStr contentType body = Ok req ->
  Spec.header "Authorization" req
  = if common.HasBasicAuth (v3.Auth c) then
      Some ["Basic " +:+ base64_EncodeToString
              ((common.GetBasicAuth (v3.Auth c)).1 +:+ ":"
               +:+ (common.GetBasicAuth (v3.Auth c)).2)]
    else if decide (common.GetBearerToken (v3.Auth c) = "") then None
    else Some ["Bearer " +:+ common.GetBearerToken (v3.Auth c)].
Proof.
  intros Hreq. NewRequest_run Hreq.
  destruct (v3.Auth c) as [hasBasic [user pass] hasAgent agent bearer]; cbn.
  destruct hasBasic, hasAgent, (decide (contentType = "")), body; cbn;
    repeat case_bool_decide; repeat case_decide; cbn;
    header_lookup; try reflexivity; try contradiction.
Qed.

(** C5 (as amended).  A request built by [NewRequest] carries at most one
    Authorization scheme, basic-auth first: with basic-auth set the header
    is the Basic one alone (also when a bearer token is set); without
    basic-auth and with a non-empty bearer token it is the Bearer one alone;
    with neither there is no Authorization header.  The User-Agent header
    is the configured user agent exactly when one is set. *)
Theorem NewRequest_authorization {V} `{JSONEncode V} (c : v3.Client)
    (ctx : option context_Context) (method urlStr contentType : string)
    (body : Body V) (req : http.Request) :
  v3.NewRequest c ctx method urlStr contentType body = Ok req ->
  (common.HasBasicAuth (v3.Auth c) = true ->
     Spec.header "Authorization" req
     = Some ["Basic " +:+ base64_EncodeToString
               ((common.GetBasicAuth (v3.Auth c)).1 +:+ ":"
                +:+ (common.GetBasicAuth (v3.Auth c)).2)])
  /\ (common.HasBasicAuth (v3.Auth c) = false ->
      common.GetBearerToken (v3.Auth c) <> "" ->
      Spec.header "Authorization" req
      = Some ["Bearer " +:+ common.GetBearerToken (v3.Auth c)])
  /\ (common.HasBasicAuth (v3.Auth c) = false ->
      common.GetBearerToken (v3.Auth c) = "" ->
      Spec.header "Authorization" req = None)
  /\ (length (Header_Values "Authorization" (http.Header req)) <= 1)%nat
  /\ Spec.header "User-Agent" req
     = (if common.HasUserAgent (v3.Auth c)
        then Some [common.GetUserAgent (v3.Auth c)] else None).
Proof.
  intros Hreq.
  pose proof (NewRequest_header_Authorization _ _ _ _ _ _ _ Hreq) as Hauth.
  repeat split.
  - intros Hb. now rewrite Hauth, Hb.
  - intros Hb Ht. rewrite Hauth, Hb. now destruct (decide _).
  - intros Hb Ht. rewrite Hauth, Hb. now destruct (decide _).
  - unfold Header_Values. unfold Spec.header in Hauth. rewrite Hauth.
    destruct (common.HasBasicAuth (v3.Auth c)); [cbn; lia|].
    destruct (decide _); cbn; lia.
  - clear Hauth. NewRequest_run Hreq.
    destruct (v3.Auth c) as [hasBasic [user pass] hasAgent agent bearer]; cbn.
    destruct hasBasic, hasAgent, (decide (contentType = "")), body; cbn;
      repeat case_bool_decide; cbn; header_lookup; reflexivity.
Qed.

(** C6.  A request built by [NewRequest] always accepts JSON; without a
    [contentType] argument its Content-Type is JSON exactly when a body is
    present (and there is none otherwise); a non-empty [contentType]
    overrides that rule, whether a body is present or not, and marks the
    request with the no-check upload header. *)
Theorem NewRequest_content_headers {V} `{JSONEncode V} (c : v3.Client)
    (ctx : option context_Context) (method urlStr contentType : string)
    (body : Body V) (req : http.Request) :
  v3.NewRequest c ctx method urlStr contentType body = Ok req ->
  Spec.header "Accept" req = Some ["application/json"]
  /\ (contentType = "" ->
      (body <> BodyNil <->
         Spec.header "Content-Type" req = Some ["application/json"])
      /\ (body = BodyNil -> Spec.header "Content-Type" req = None)
      /\ Spec.header "X-Atlassian-Token" req = None)
  /\ (contentType <> "" ->
      Spec.header "Content-Type" req = Some [contentType]
      /\ Spec.header "X-Atlassian-Token" req = Some ["no-check"]).
Proof.
  intros Hreq. NewRequest_run Hreq.
  destruct (v3.Auth c) as [hasBasic [user pass] hasAgent agent bearer]; cbn.
  destruct hasBasic, hasAgent, (decide (contentType = "")), body; cbn;
    repeat case_bool_decide; cbn; header_lookup;
    repeat split; intros; try reflexivity; try congruence; try contradiction.
Qed.

(** C7.  The payload of a request built from a non-nil body: the bytes of
    the buffer, unchanged, when the body is a byte buffer; otherwise what
    the JSON encoder writes for the body. *)
Theorem NewRequest_payload {V} `{JSONEncode V} (c : v3.Client)
    (ctx : option context_Context) (method urlStr contentType : string)
    (body : Body V) (req : http.Request) :
  v3.NewRequest c ctx method urlStr contentType body = Ok req ->
  match body with
  | BodyNil => True
  | BodyBuffer attachBuffer => http.Body req = attachBuffer
  | BodyValue v => json_Encode v = inr (http.Body req)
  end.
Proof.
  intros Hreq. NewRequest_run Hreq.
  destruct (v3.Auth c) as [hasBasic [user pass] hasAgent agent bearer]; cbn.
  destruct body as [|attachBuffer|v]; [exact I| |];
    destruct hasBasic, hasAgent; cbn; repeat case_bool_decide; cbn;
    try reflexivity; exact Eenc.
Qed.

End request.

(** ** Classification of responses *)
Section classification.
Context `{P : Platform}.

(** C2 (as amended).  For a response whose body was read to the end: a
    status in [200,300) is success, so the call reports no error of the
    status taxonomy (and no error at all without a destination); any other
    status gives the error of the taxonomy (404 not-found, 401 unauthorized,
    500 internal, 400 bad-request, otherwise invalid-status) together with
    the envelope populated with status code, endpoint, method and the
    buffered body bytes. *)
Theorem Call_status_taxonomy {D} `{JSONUnmarshal D} (c : v3.Client)
    (request : http.Request) (structure : option D)
    (response : http.Response) (data : bytes) :
  http_Do (v3.HTTP c) request = inr response ->
  http.ReadAll response = (data, None) ->
  (~ Spec.success (http.StatusCode response) ->
     v3.Call c request structure
     = (structure, Some (Spec.envelope response data),
        Some (Spec.statusError (http.StatusCode response))))
  /\ (Spec.success (http.StatusCode response) ->
      exists dest err,
        v3.Call c request structure
        = (dest, Some (Spec.envelope response data), err)
        /\ (forall e, err = Some e -> ~ Spec.isStatusError e)
        /\ (structure = None -> err = None))
  /\ Spec.statusError 404 = ErrNotFound
  /\ Spec.statusError 401 = ErrUnauthorized
  /\ Spec.statusError 500 = ErrInternal
  /\ Spec.statusError 400 = ErrBadRequest
  /\ (forall status, status <> 404 -> status <> 401 -> status <> 500 ->
        status <> 400 -> Spec.statusError status = ErrInvalidStatusCode).
Proof.
  intros Hdo Hread. unfold v3.Call. rewrite Hdo.
  split; [|split; [|repeat split]].
  - intros Hko. now apply processResponse_failure.
  - intros Hok. rewrite (processResponse_success _ _ data Hread Hok).
    destruct structure as [d|].
    + eexists _, _. split; [reflexivity|]. split; [|discriminate].
      intros e He. destruct (json_Unmarshal data d).2; [|discriminate He].
      injection He as <-. unfold Spec.isStatusError.
      intros [?|[?|[?|[?|?]]]]; discriminate.
    + eexists _, _. split; [reflexivity|]. split; [discriminate|reflexivity].
  - intros status ? ? ? ?. unfold Spec.statusError.
    repeat case_decide; congruence.
Qed.

(** C9 (as amended).  With a destination, a status in [200,300) and a body
    read to the end, the buffered body bytes are decoded into the
    destination; a decoding failure is returned as an error together with
    the populated envelope.  That error is none of the status taxonomy, and
    a call only ever returns it for a response with a status in [200,300)
    and a destination. *)
Theorem Call_decode {D} `{JSONUnmarshal D} (c : v3.Client)
    (request : http.Request) (d : D)
    (response : http.Response) (data : bytes) :
  http_Do (v3.HTTP c) request = inr response ->
  http.ReadAll response = (data, None) ->
  Spec.success (http.StatusCode response) ->
  v3.Call c request (Some d)
  = (Some (json_Unmarshal data d).1, Some (Spec.envelope response data),
     JSONError <$> (json_Unmarshal data d).2)
  /\ (forall msg, ~ Spec.isStatusError (JSONError msg))
  /\ (forall request' structure dest res msg,
        v3.Call c request' structure = (dest, res, Some (JSONError msg)) ->
        exists response',
          http_Do (v3.HTTP c) request' = inr response'
          /\ Spec.success (http.StatusCode response')
          /\ structure <> None).
Proof.
  intros Hdo Hread Hok. split; [|split].
  - unfold v3.Call. rewrite Hdo.
    now rewrite (processResponse_success _ _ data Hread Hok).
  - intros msg [?|[?|[?|[?|?]]]]; discriminate.
  - intros request' structure dest res msg. unfold v3.Call.
    destruct (http_Do (v3.HTTP c) request') as [e|response']; [discriminate|].
    intros Hcall. exists response'. split; [reflexivity|].
    destruct (http.ReadAll response') as [data' [e|]] eqn:Hread'.
    { rewrite (processResponse_read_error _ _ data' e Hread') in Hcall.
      discriminate Hcall. }
    destruct (decide (Spec.success (http.StatusCode response'))) as [Hok'|Hko'].
    + split; [exact Hok'|].
      rewrite (processResponse_success _ _ data' Hread' Hok') in Hcall.
      destruct structure; [discriminate|discriminate Hcall].
    + rewrite (processResponse_failure _ _ data' Hread' Hko') in Hcall.
      pose proof (statusError_isStatusError (http.StatusCode response')) as Hs.
      injection Hcall as _ _ Hcall. rewrite Hcall in Hs.
      destruct Hs as [?|[?|[?|[?|?]]]]; discriminate.
Qed.

End classification.

(** ** The archival resource *)
Section archival.
Context `{P : Platform}.
Import service.

(** C8.  Empty domain arguments are rejected before the connector is used:
    [Preserve] and [Restore] on an empty list of issues return the
    no-issues error with nil result and nil response, [PreserveByJQL] on an
    empty query returns the no-JQL error with an empty task ID and nil
    response; in all three the connector's log is unchanged, so no request
    was built or sent. *)
Theorem archival_validates_before_request
    (i : internal.internalIssueArchivalImpl) (ctx : option context_Context)
    (log : list Event) :
  internal.Preserve i ctx [] log = ((None, None, Some ErrNoIssuesSlice), log)
  /\ internal.Restore i ctx [] log = ((None, None, Some ErrNoIssuesSlice), log)
  /\ internal.PreserveByJQL i ctx "" log = (("", None, Some ErrNoJQL), log).
Proof. repeat split. Qed.

(** Past validation, every archival method uses its connector. *)
Lemma Preserve_uses_connector (i : internal.internalIssueArchivalImpl)
    (ctx : option context_Context) (issueIdsOrKeys : list string) (log : list Event) :
  issueIdsOrKeys <> [] ->
  exists log',
    (internal.Preserve i ctx issueIdsOrKeys log).2
    = (log ++ EvNewRequest ctx http.MethodPut
                ("rest/api/" +:+ internal.version i +:+ "/issue/archive") ""
           :: log')%list.
Proof.
  intros Hne. unfold internal.Preserve.
  destruct (decide (length issueIdsOrKeys = 0%nat)) as [Hl|Hl].
  { destruct issueIdsOrKeys; [contradiction|discriminate Hl]. }
  unfold internal.c_NewRequest, internal.c_Call, bind, emit, ret. cbn.
  destruct (NewRequest _ _ _ _ _ _ _) as [request|e]; cbn.
  - destruct (Call _ _ _ _) as [[? ?] [?|]]; cbn; rewrite <- app_assoc;
      eexists; reflexivity.
  - exists []. reflexivity.
Qed.

(** [Export] has a single value for its task ID. *)
Lemma Export_taskID (i : internal.internalIssueArchivalImpl) (ctx : option context_Context)
    (payload : option IssueArchivalExportPayloadScheme) (log : list Event) :
  (internal.Export i ctx payload log).1.1.1 = "".
Proof.
  unfold internal.Export, internal.c_NewRequest, internal.c_Call, bind, emit, ret.
  cbn. destruct (NewRequest _ _ _ _ _ _ _) as [request|e]; cbn; [|reflexivity].
  destruct (Call _ _ _ _) as [[? ?] [?|]]; reflexivity.
Qed.

(** C10.  An [Export] call that completes without error returns the empty
    string as its task ID. *)
Theorem Export_returns_no_task_id (i : internal.internalIssueArchivalImpl)
    (ctx : option context_Context)
    (payload : option IssueArchivalExportPayloadScheme) (log log' : list Event)
    (taskID : string) (response : option ResponseScheme) :
  internal.Export i ctx payload log = ((taskID, response, None), log') ->
  taskID = "".
Proof.
  intros Hexport. pose proof (Export_taskID i ctx payload log) as Hid.
  now rewrite Hexport in Hid.
Qed.

(** A [PreserveByJQL] call on a client that completes without error went
    through a successful exchange, and its task ID is [path.Base] of the
    body. *)
Lemma PreserveByJQL_no_error (c : v3.Client) (ctx : option context_Context) (jql : string)
    (log log' : list Event) (taskID : string) (response : option ResponseScheme) :
  internal.PreserveByJQL (v3.Archival c) ctx jql log = ((taskID, response, None), log') ->
  exists request httpResponse data,
    http_Do (v3.HTTP c) request = inr httpResponse
    /\ http.ReadAll httpResponse = (data, None)
    /\ Spec.success (http.StatusCode httpResponse)
    /\ response = Some (Spec.envelope httpResponse data)
    /\ taskID = path_Base data.
Proof.
  unfold internal.PreserveByJQL.
  destruct (decide (jql = "")) as [Hj|Hj]; [discriminate|].
  unfold internal.c_NewRequest, internal.c_Call, bind, emit, ret. cbn.
  destruct (v3.NewRequest _ _ _ _ _ _) as [request|e]; cbn; [|discriminate].
  destruct (v3.Call c request None) as [[dest res] [e|]] eqn:Hcall; cbn;
    [discriminate|].
  intros Hout. injection Hout as Hid Hres _. subst response.
  destruct (Call_no_error c request None dest res Hcall)
    as (httpResponse & data & Hdo & Hread & Hok & ->).
  cbn in Hid. exists request, httpResponse, data. auto.
Qed.

(** C1 (as amended).  For every [PreserveByJQL] call on a client whose HTTP
    exchange succeeds (the query is not empty, the request is built, the
    transport answers, the body is read to the end and the status is in
    [200,300)), the call returns no error, the envelope of the response and,
    as task ID, [path.Base] of the body: "." for an empty body, and the
    final segment of a body that ends in a slash followed by a non-empty
    segment without slashes.  The resolved URL of the response is not
    consulted.  Conversely, a call that returns no error went through such
    an exchange. *)
Theorem PreserveByJQL_task_id_from_body (c : v3.Client) (ctx : option context_Context)
    (jql : string) (log : list Event) (request : http.Request)
    (httpResponse : http.Response) (data : bytes) :
  jql <> "" ->
  v3.NewRequest c ctx http.MethodPost
    ("rest/api/" +:+ v3.APIVersion +:+ "/issue/archive") ""
    (BodyValue (jqlPayload jql)) = Ok request ->
  http_Do (v3.HTTP c) request = inr httpResponse ->
  http.ReadAll httpResponse = (data, None) ->
  Spec.success (http.StatusCode httpResponse) ->
  internal.PreserveByJQL (v3.Archival c) ctx jql log
  = ((path_Base data, Some (Spec.envelope httpResponse data), None),
     (log ++ [EvNewRequest ctx http.MethodPost
                ("rest/api/" +:+ v3.APIVersion +:+ "/issue/archive") "";
              EvCall request])%list)
  /\ (data = "" -> path_Base data = ".")
  /\ (forall pre seg,
        data = pre +:+ "/" +:+ seg -> seg <> "" ->
        slash ∉ list_ascii_of_string seg -> path_Base data = seg)
  /\ (forall log0 log' taskID response,
        internal.PreserveByJQL (v3.Archival c) ctx jql log0
        = ((taskID, response, None), log') ->
        exists request' httpResponse' data',
          http_Do (v3.HTTP c) request' = inr httpResponse'
          /\ http.ReadAll httpResponse' = (data', None)
          /\ Spec.success (http.StatusCode httpResponse')
          /\ response = Some (Spec.envelope httpResponse' data')
          /\ taskID = path_Base data').
Proof.
  intros Hj Hreq Hdo Hread Hok.
  split; [|split; [|split]].
  - unfold internal.PreserveByJQL.
    destruct (decide (jql = "")) as [|_]; [contradiction|].
    unfold internal.c_NewRequest, internal.c_Call, bind, emit, ret. cbn.
    unfold jqlPayload in Hreq. rewrite Hreq. cbn.
    unfold v3.Call. rewrite Hdo.
    rewrite (processResponse_success _ _ data Hread Hok). cbn.
    now rewrite <- app_assoc.
  - now intros ->.
  - intros pre seg -> Hne Hns. now apply path_Base_last_segment.
  - intros log0 log' taskID response. apply PreserveByJQL_no_error.
Qed.

End archival.

(** ** Client construction: [New] and its options *)
Section construction.
Context `{P : Platform}.

Lemma applyOptions_app (pre post : list v3.ClientOption) (c : v3.Client) :
  v3.applyOptions (pre ++ post) c
  = match v3.applyOptions pre c with
    | (c', Some err) => (c', Some err)
    | (c', None) => v3.applyOptions post c'
    end.
Proof.
  revert c. induction pre as [|o pre IH]; intros c; cbn; [reflexivity|].
  destruct (o c) as [c' [err|]]; [reflexivity|apply IH].
Qed.

Lemma applyOptions_leaves_unset (options : list v3.ClientOption) (c : v3.Client) :
  Forall leavesOAuthUnset options ->
  v3.OAuth c = None ->
  v3.OAuth (v3.applyOptions options c).1 = None.
Proof.
  intros Hall. revert c.
  induction Hall as [|o options Ho Hall IH]; intros c Hc; cbn; [exact Hc|].
  specialize (Ho c Hc). destruct (o c) as [c' [err|]]; cbn in *; [exact Ho|].
  now apply IH.
Qed.

Lemma WithTokenStore_leaves_unset (store : option TokenStore) :
  leavesOAuthUnset (v3.WithTokenStore store).
Proof. intros c Hc. unfold v3.WithTokenStore. now destruct store. Qed.

Lemma WithTokenCallback_leaves_unset (callback : option TokenCallback) :
  leavesOAuthUnset (v3.WithTokenCallback callback).
Proof. intros c Hc. unfold v3.WithTokenCallback. now destruct callback. Qed.

Lemma WithOAuth_nil_leaves_unset : leavesOAuthUnset (v3.WithOAuth None).
Proof. intros c Hc. exact Hc. Qed.

(** On a client without OAuth2 the auto-renewal option fails and leaves the
    client as it was. *)
Lemma WithAutoRenewalToken_without_OAuth (token : option common.OAuth2Token)
    (c : v3.Client) :
  v3.OAuth c = None ->
  v3.WithAutoRenewalToken token c = (c, Some (autoRenewalError token)).
Proof.
  intros Hc. unfold v3.WithAutoRenewalToken, autoRenewalError.
  destruct token; [now rewrite Hc|reflexivity].
Qed.

Lemma WithAutoRenewalToken_leaves_unset (token : option common.OAuth2Token) :
  leavesOAuthUnset (v3.WithAutoRenewalToken token).
Proof.
  intros c Hc. now rewrite (WithAutoRenewalToken_without_OAuth token c Hc).
Qed.

(** [New] either fails without a client, or returns the client on which
    every option succeeded. *)
Lemma New_outcome (httpClient : option HTTPClient) (site : string)
    (options : list v3.ClientOption) :
  (exists err, v3.New httpClient site options = (None, Some err))
  \/ (exists u client,
        v3.New httpClient site options = (Some client, None)
        /\ v3.applyOptions options (freshClient httpClient u) = (client, None)).
Proof.
  unfold v3.New.
  destruct (decide (site = "")); [left; eauto|].
  destruct (url_Parse _) as [e|u]; [left; eauto|].
  destruct (internal_NewServices v3.APIVersion) as [e|]; [left; eauto|].
  fold (freshClient httpClient u).
  destruct (v3.applyOptions options (freshClient httpClient u))
    as [client [err|]] eqn:Happly; [left; eauto|].
  right. exists u, client. auto.
Qed.

(** A failing option makes [New] fail. *)
Lemma New_option_failure (httpClient : option HTTPClient) (site : string)
    (options : list v3.ClientOption) :
  (forall u, exists c' err,
      v3.applyOptions options (freshClient httpClient u) = (c', Some err)) ->
  exists err, v3.New httpClient site options = (None, Some err).
Proof.
  intros Hfail.
  destruct (New_outcome httpClient site options)
    as [Herr|(u & client & _ & Happly)]; [exact Herr|].
  destruct (Hfail u) as (c' & err & Hf). congruence.
Qed.

(** C3.  When the options before an auto-renewal option install no OAuth2,
    construction fails and [New] returns no client; if construction got as
    far as that option the error is the configuration error of the
    auto-renewal option.  For any options, [New] returns either an error
    without a client or, without error, the client on which every option
    succeeded: never a client after an option failed. *)
Theorem New_auto_renewal_requires_OAuth (httpClient : option HTTPClient)
    (site : string) (pre post : list v3.ClientOption)
    (token : option common.OAuth2Token) :
  Forall leavesOAuthUnset pre ->
  (exists err,
      v3.New httpClient site (pre ++ v3.WithAutoRenewalToken token :: post)
      = (None, Some err))
  /\ (forall client,
        v3.New httpClient site pre = (Some client, None) ->
        v3.New httpClient site (pre ++ v3.WithAutoRenewalToken token :: post)
        = (None, Some (autoRenewalError token)))
  /\ (forall options client err,
        v3.New httpClient site options = (client, err) ->
        (client = None /\ err <> None)
        \/ (err = None
            /\ exists u c,
                 client = Some c
                 /\ v3.applyOptions options (freshClient httpClient u) = (c, None))).
Proof.
  intros Hpre.
  assert (Hstep : forall u,
    v3.applyOptions (pre ++ v3.WithAutoRenewalToken token :: post)
      (freshClient httpClient u)
    = match v3.applyOptions pre (freshClient httpClient u) with
      | (c', Some err) => (c', Some err)
      | (c', None) => (c', Some (autoRenewalError token))
      end).
  { intros u. rewrite applyOptions_app.
    pose proof (applyOptions_leaves_unset pre (freshClient httpClient u) Hpre eq_refl)
      as Hunset.
    destruct (v3.applyOptions pre (freshClient httpClient u)) as [c' [err|]];
      [reflexivity|].
    cbn in Hunset. cbn [v3.applyOptions].
    now rewrite (WithAutoRenewalToken_without_OAuth token c' Hunset). }
  split; [|split].
  - apply New_option_failure. intros u. rewrite Hstep.
    destruct (v3.applyOptions pre (freshClient httpClient u)) as [c' [err|]];
      eauto.
  - intros client. unfold v3.New.
    destruct (decide (site = "")); [discriminate|].
    destruct (url_Parse _) as [e|u]; [discriminate|].
    destruct (internal_NewServices v3.APIVersion) as [e|]; [discriminate|].
    fold (freshClient httpClient u). rewrite Hstep.
    destruct (v3.applyOptions pre (freshClient httpClient u)) as [c' [err|]];
      [discriminate|reflexivity].
  - intros options client err Hnew.
    destruct (New_outcome httpClient site options)
      as [(e & He)|(u & c & Hc & Happly)].
    + left. rewrite He in Hnew. injection Hnew as <- <-. split; [reflexivity|discriminate].
    + right. rewrite Hc in Hnew. injection Hnew as <- <-. eauto.
Qed.

(** C4.  The composite option is the two options applied back-to-back, on
    every client and for every configuration and token, nil or not: same
    resulting client and same error; so [New] cannot tell a sequence of
    options with the composite from the sequence with the two steps in
    its place. *)
Theorem WithOAuthWithAutoRenewal_is_sequence (config : option OAuth2Config)
    (token : option common.OAuth2Token) :
  (forall c,
      v3.WithOAuthWithAutoRenewal config token c
      = v3.applyOptions [v3.WithOAuth config; v3.WithAutoRenewalToken token] c)
  /\ (forall httpClient site pre post,
        v3.New httpClient site
          (pre ++ v3.WithOAuthWithAutoRenewal config token :: post)
        = v3.New httpClient site
            (pre ++ v3.WithOAuth config :: v3.WithAutoRenewalToken token :: post)).
Proof.
  assert (Hseq : forall c,
    v3.WithOAuthWithAutoRenewal config token c
    = v3.applyOptions [v3.WithOAuth config; v3.WithAutoRenewalToken token] c).
  { intros c. unfold v3.WithOAuthWithAutoRenewal. cbn [v3.applyOptions].
    destruct (v3.WithOAuth config c) as [c1 [err|]]; [reflexivity|].
    destruct (v3.WithAutoRenewalToken token c1) as [c2 [err|]]; reflexivity. }
  split; [exact Hseq|].
  intros httpClient site pre post. unfold v3.New.
  destruct (decide (site = "")); [reflexivity|].
  destruct (url_Parse _) as [e|u]; [reflexivity|].
  destruct (internal_NewServices v3.APIVersion) as [e|]; [reflexivity|].
  rewrite !applyOptions_app.
  destruct (v3.applyOptions pre _) as [c [err|]]; [reflexivity|].
  cbn [v3.applyOptions]. rewrite Hseq. cbn [v3.applyOptions].
  destruct (v3.WithOAuth config c) as [c1 [err|]]; [reflexivity|].
  destruct (v3.WithAutoRenewalToken token c1) as [c2 [err|]]; reflexivity.
Qed.

End construction.

(** ** Scenarios on the concrete platform *)
Section scenarios.
#[local] Existing Instance Demo.platform.
Import service.

Example PreserveByJQL_accepted :
  (run (internal.PreserveByJQL (v3.Archival Demo.acceptedClient) Demo.background
          "project = X")).1.1.1
  = "10042".
Proof. vm_compute. reflexivity. Qed.

Example PreserveByJQL_no_content :
  (run (internal.PreserveByJQL (v3.Archival Demo.noContentClient) Demo.background
          "project = X")).1.1.1
  = ".".
Proof. vm_compute. reflexivity. Qed.

Lemma PreserveByJQL_task_id_from_body_witness :
  let out := run (internal.PreserveByJQL (v3.Archival Demo.acceptedClient)
                    Demo.background "project = X") in
  out.1.1.1 = path_Base Demo.taskURL
  /\ out.1.1.1 = "10042"
  /\ (Code <$> out.1.1.2) = Some 202
  /\ out.1.2 = None.
Proof.
  pose (request :=
    Demo.requestOf
      (v3.NewRequest Demo.acceptedClient Demo.background http.MethodPost
         ("rest/api/" +:+ v3.APIVersion +:+ "/issue/archive") ""
         (BodyValue (jqlPayload "project = X")))).
  assert (Hok : Spec.success 202) by (unfold Spec.success; lia).
  destruct (PreserveByJQL_task_id_from_body Demo.acceptedClient Demo.background
              "project = X" [] request
              (Demo.respond 202 Demo.archiveURL (Demo.taskURL, None) request)
              Demo.taskURL ltac:(discriminate) eq_refl eq_refl eq_refl Hok)
    as (Hrun & _ & Hseg & _).
  cbv zeta. unfold run. rewrite Hrun. cbn [fst snd].
  split; [reflexivity|]. split; [|split; reflexivity].
  apply (Hseg "https://x.atlassian.net/rest/api/3/task" "10042");
    [reflexivity|discriminate|].
  intros Hin. vm_compute in Hin. repeat (apply elem_of_cons in Hin as [Hin|Hin];
    [discriminate Hin|]). now apply elem_of_nil in Hin.
Defined.

(** C1 as stated fails: in the scenario of the specification (status 204,
    empty body, resolved URL ending in /task/10042) the call succeeds and
    the task ID is ".", not the final segment of the resolved URL. *)
Lemma PreserveByJQL_task_id_not_from_url :
  (let out := run (internal.PreserveByJQL (v3.Archival Demo.noContentClient)
                     Demo.background "project = X") in
   out.1.2 = None
   /\ (Code <$> out.1.1.2) = Some 204
   /\ (Bytes <$> out.1.1.2) = Some ""
   /\ (Endpoint <$> out.1.1.2) = Some Demo.taskURL
   /\ path_Base Demo.taskURL = "10042"
   /\ out.1.1.1 = "."
   /\ out.1.1.1 <> "10042")
  /\ ~ (forall (P : Platform) (c : v3.Client) (ctx : option context_Context) (jql : string)
          (log log' : list Event) (taskID : string) (res : ResponseScheme),
          internal.PreserveByJQL (v3.Archival c) ctx jql log
          = ((taskID, Some res, None), log') ->
          taskID = path_Base (Endpoint res)).
Proof.
  split.
  - vm_compute. repeat split; discriminate.
  - intros Hclaim.
    pose (out := run (internal.PreserveByJQL (v3.Archival Demo.noContentClient)
                        Demo.background "project = X")).
    destruct out.1.1.2 as [res|] eqn:Hres; [|vm_compute in Hres; discriminate Hres].
    assert (Hrun : internal.PreserveByJQL (v3.Archival Demo.noContentClient)
                     Demo.background "project = X" []
                   = ((".", Some res, None), out.2)).
    { vm_compute in Hres. injection Hres as <-. vm_compute. reflexivity. }
    specialize (Hclaim Demo.platform _ _ _ _ _ _ _ Hrun).
    vm_compute in Hres. injection Hres as <-. vm_compute in Hclaim.
    discriminate Hclaim.
Qed.

Lemma Call_status_taxonomy_witness :
  v3.Call (D := Empty_set) Demo.notFoundClient Demo.someRequest None
  = (None,
     Some (Spec.envelope
             (Demo.respond 404 Demo.archiveURL Demo.notFoundBody Demo.someRequest)
             "Issue does not exist"),
     Some ErrNotFound).
Proof.
  refine (proj1 (Call_status_taxonomy (D := Empty_set) Demo.notFoundClient
                   Demo.someRequest None _ "Issue does not exist" _ _) _).
  - reflexivity.
  - reflexivity.
  - unfold Spec.success. cbn. lia.
Defined.

(** C2 as stated fails: a 404 response whose body cannot be read to the end
    gives the read error, not not-found, and an envelope without the body
    bytes. *)
Lemma Call_status_taxonomy_needs_body :
  v3.Call (D := Empty_set) Demo.brokenNotFoundClient Demo.someRequest None
  = (None,
     Some (Spec.envelope
             (Demo.respond 404 Demo.archiveURL Demo.brokenNotFoundBody
                Demo.someRequest) ""),
     Some (IOError "unexpected EOF"))
  /\ ~ (forall (P : Platform) (c : v3.Client) (request : http.Request)
          (response : http.Response),
          http_Do (v3.HTTP c) request = inr response ->
          ~ Spec.success (http.StatusCode response) ->
          exists res,
            v3.Call (D := Empty_set) c request None
            = (None, Some res, Some (Spec.statusError (http.StatusCode response)))
            /\ Code res = http.StatusCode response
            /\ Bytes res = (http.ReadAll response).1).
Proof.
  split; [reflexivity|]. intros Hclaim.
  destruct (Hclaim Demo.platform Demo.brokenNotFoundClient Demo.someRequest
              _ eq_refl) as (res & Hcall & _).
  - unfold Spec.success. cbn. lia.
  - discriminate Hcall.
Qed.

Lemma Call_decode_witness :
  v3.Call Demo.htmlClient Demo.someRequest (Some new_IssueArchivalSyncResponseScheme)
  = (Some new_IssueArchivalSyncResponseScheme,
     Some (Spec.envelope
             (Demo.respond 200 Demo.archiveURL Demo.htmlBody Demo.someRequest)
             "<html>"),
     Some (JSONError "invalid character '<' looking for beginning of value"))
  /\ v3.Call Demo.reportClient Demo.someRequest (Some new_IssueArchivalSyncResponseScheme)
     = (Some {| Errors := None; NumberOfIssuesUpdated := 2 |},
        Some (Spec.envelope
                (Demo.respond 200 Demo.archiveURL Demo.reportBody Demo.someRequest)
                Demo.reportJSON),
        None)
  /\ v3.Call Demo.emptyReportClient Demo.someRequest
       (Some new_IssueArchivalSyncResponseScheme)
     = (Some new_IssueArchivalSyncResponseScheme,
        Some (Spec.envelope
                (Demo.respond 200 Demo.archiveURL ("{}", None) Demo.someRequest)
                "{}"),
        None).
Proof.
  split; [|split].
  - refine (proj1 (Call_decode Demo.htmlClient Demo.someRequest
                     new_IssueArchivalSyncResponseScheme _ "<html>" _ _ _)).
    + reflexivity.
    + reflexivity.
    + unfold Spec.success. cbn. lia.
  - refine (proj1 (Call_decode Demo.reportClient Demo.someRequest
                     new_IssueArchivalSyncResponseScheme _ Demo.reportJSON _ _ _)).
    + reflexivity.
    + reflexivity.
    + unfold Spec.success. cbn. lia.
  - refine (proj1 (Call_decode Demo.emptyReportClient Demo.someRequest
                     new_IssueArchivalSyncResponseScheme _ "{}" _ _ _)).
    + reflexivity.
    + reflexivity.
    + unfold Spec.success. cbn. lia.
Defined.

(** C9 as stated fails: with a destination and status 200, a body that
    cannot be read to the end is not decoded; the destination stays as it
    was and the read error is returned. *)
Lemma Call_decode_needs_body :
  v3.Call Demo.brokenReportClient Demo.someRequest
    (Some new_IssueArchivalSyncResponseScheme)
  = (Some new_IssueArchivalSyncResponseScheme,
     Some (Spec.envelope
             (Demo.respond 200 Demo.archiveURL Demo.brokenReportBody
                Demo.someRequest) ""),
     Some (IOError "unexpected EOF"))
  /\ ~ (forall (P : Platform) (D : Type) (U : JSONUnmarshal D) (c : v3.Client)
          (request : http.Request) (d : D) (response : http.Response),
          http_Do (v3.HTTP c) request = inr response ->
          Spec.success (http.StatusCode response) ->
          v3.Call c request (Some d)
          = (Some (json_Unmarshal (http.ReadAll response).1 d).1,
             Some (Spec.envelope response (http.ReadAll response).1),
             JSONError <$> (json_Unmarshal (http.ReadAll response).1 d).2)).
Proof.
  split; [reflexivity|]. intros Hclaim.
  assert (Hcall := Hclaim Demo.platform _ _ Demo.brokenReportClient
                     Demo.someRequest new_IssueArchivalSyncResponseScheme
                     _ eq_refl).
  assert (Hok : Spec.success 200) by (unfold Spec.success; lia).
  specialize (Hcall Hok). discriminate Hcall.
Qed.

Lemma builtWith_Ok a contentType body :
  Demo.builtWith a contentType body = Ok (Demo.requestOf (Demo.builtWith a contentType body)).
Proof.
  unfold Demo.builtWith, v3.NewRequest, v3.http_NewRequestWithContext. cbn.
  destruct body; reflexivity.
Qed.

Lemma NewRequest_authorization_witness :
  Spec.header "Authorization" (Demo.requestOf (Demo.builtWith Demo.bothCredentials "" Demo.jqlPayload))
  = Some ["Basic bWFpbEBleGFtcGxlLmNvbTpzZWNyZXQ="]
  /\ Spec.header "Authorization" (Demo.requestOf (Demo.builtWith Demo.bearerOnly "" Demo.jqlPayload))
     = Some ["Bearer tok-1"]
  /\ Spec.header "User-Agent" (Demo.requestOf (Demo.builtWith Demo.bothCredentials "" Demo.jqlPayload))
     = Some ["go-atlassian"].
Proof.
  pose proof (NewRequest_authorization _ _ _ _ _ _ _
                (builtWith_Ok Demo.bothCredentials "" Demo.jqlPayload))
    as (Hbasic & _ & _ & _ & Hagent).
  pose proof (NewRequest_authorization _ _ _ _ _ _ _
                (builtWith_Ok Demo.bearerOnly "" Demo.jqlPayload))
    as (_ & Hbearer & _).
  split; [exact (Hbasic eq_refl)|].
  split; [|exact Hagent].
  apply Hbearer; [reflexivity|discriminate].
Defined.

(** C5 as stated fails: a client without credentials builds a request with
    no Authorization scheme at all. *)
Lemma NewRequest_without_credentials :
  Spec.header "Authorization" (Demo.requestOf (Demo.builtWith Demo.anonymous "" Demo.jqlPayload))
  = None
  /\ ~ (forall (P : Platform) (V : Type) (E : JSONEncode V) (c : v3.Client)
          (ctx : option context_Context) (method urlStr contentType : string)
          (body : Body V) (req : http.Request),
          v3.NewRequest c ctx method urlStr contentType body = Ok req ->
          length (Header_Values "Authorization" (http.Header req)) = 1%nat).
Proof.
  split; [vm_compute; reflexivity|]. intros Hclaim.
  specialize (Hclaim Demo.platform _ _ _ _ _ _ _ _ _
                (builtWith_Ok Demo.anonymous "" Demo.jqlPayload)).
  vm_compute in Hclaim. discriminate Hclaim.
Qed.

Lemma NewRequest_content_headers_witness :
  (Spec.header "Accept" (Demo.requestOf (Demo.builtWith Demo.anonymous "" Demo.jqlPayload))
   = Some ["application/json"]
   /\ Spec.header "Content-Type" (Demo.requestOf (Demo.builtWith Demo.anonymous "" Demo.jqlPayload))
      = Some ["application/json"])
  /\ Spec.header "Content-Type" (Demo.requestOf (Demo.builtWith Demo.anonymous "" BodyNil)) = None
  /\ (Spec.header "Content-Type"
        (Demo.requestOf (Demo.builtWith Demo.anonymous "multipart/form-data" (BodyBuffer "abc")))
      = Some ["multipart/form-data"]
      /\ Spec.header "X-Atlassian-Token"
           (Demo.requestOf (Demo.builtWith Demo.anonymous "multipart/form-data" (BodyBuffer "abc")))
         = Some ["no-check"]).
Proof.
  pose proof (NewRequest_content_headers _ _ _ _ _ _ _
                (builtWith_Ok Demo.anonymous "" Demo.jqlPayload))
    as (Haccept & Hjson & _).
  pose proof (NewRequest_content_headers _ _ _ _ _ _ _
                (builtWith_Ok Demo.anonymous "" BodyNil))
    as (_ & Hnil & _).
  pose proof (NewRequest_content_headers _ _ _ _ _ _ _
                (builtWith_Ok Demo.anonymous "multipart/form-data" (BodyBuffer "abc")))
    as (_ & _ & Hupload).
  split; [split; [exact Haccept|]|split].
  - apply (proj1 (Hjson eq_refl)). discriminate.
  - apply (proj1 (proj2 (Hnil eq_refl))). reflexivity.
  - apply Hupload. discriminate.
Defined.

Lemma NewRequest_payload_witness :
  http.Body (Demo.requestOf (Demo.builtWith Demo.anonymous "multipart/form-data" (BodyBuffer "abc")))
  = "abc"
  /\ json_Encode (<["jql" := MString "project = X"]> (∅ : gmap string MapValue))
     = inr (http.Body (Demo.requestOf (Demo.builtWith Demo.anonymous "" Demo.jqlPayload))).
Proof.
  split.
  - exact (NewRequest_payload _ _ _ _ _ _ _
             (builtWith_Ok Demo.anonymous "multipart/form-data" (BodyBuffer "abc"))).
  - exact (NewRequest_payload _ _ _ _ _ _ _
             (builtWith_Ok Demo.anonymous "" Demo.jqlPayload)).
Defined.

Lemma Export_returns_no_task_id_witness :
  let out := run (internal.Export (v3.Archival Demo.acceptedClient) Demo.background
                    Demo.exportPayload) in
  out.1.2 = None /\ out.1.1.1 = "".
Proof.
  intros out. split; [vm_compute; reflexivity|].
  apply (Export_returns_no_task_id (v3.Archival Demo.acceptedClient) Demo.background
           Demo.exportPayload [] out.2 out.1.1.1 out.1.1.2).
  vm_compute. reflexivity.
Defined.

Lemma New_auto_renewal_requires_OAuth_witness :
  Forall leavesOAuthUnset [Demo.withStore]
  /\ v3.New None "https://x.atlassian.net"
       ([Demo.withStore]
        ++ v3.WithAutoRenewalToken (Some Demo.token) :: [Demo.withOAuth])
     = (None, Some (autoRenewalError (Some Demo.token))).
Proof.
  assert (Hpre : Forall leavesOAuthUnset [Demo.withStore]).
  { repeat constructor. apply WithTokenStore_leaves_unset. }
  split; [exact Hpre|].
  destruct (New_auto_renewal_requires_OAuth None "https://x.atlassian.net"
              [Demo.withStore] [Demo.withOAuth] (Some Demo.token) Hpre)
    as (_ & Hreach & _).
  eapply Hreach. reflexivity.
Defined.

(** Installing OAuth2 first lets auto-renewal through: the client is built
    and carries the token as its bearer token. *)
Example New_oauth_then_renewal :
  (common.GetBearerToken ∘ v3.Auth)
    <$> (v3.New None "https://x.atlassian.net"
           [Demo.withOAuth; v3.WithAutoRenewalToken (Some Demo.token)]).1
  = Some "at-1".
Proof. reflexivity. Qed.

Example New_composite_option :
  v3.New None "https://x.atlassian.net"
    [v3.WithOAuthWithAutoRenewal (Some true) (Some Demo.token)]
  = v3.New None "https://x.atlassian.net"
      [Demo.withOAuth; v3.WithAutoRenewalToken (Some Demo.token)].
Proof. reflexivity. Qed.

Example New_composite_nil_token :
  (v3.New None "https://x.atlassian.net"
     [v3.WithOAuthWithAutoRenewal (Some true) None]).2
  = Some (Errorf "token cannot be nil for auto-renewal").
Proof. reflexivity. Qed.

Example New_no_site : v3.New None "" [] = (None, Some ErrNoSite).
Proof. reflexivity. Qed.

Example Preserve_empty_log :
  run (internal.Preserve (v3.Archival Demo.reportClient) Demo.background [])
  = ((None, None, Some ErrNoIssuesSlice), []).
Proof. reflexivity. Qed.

Example Preserve_report :
  (run (internal.Preserve (v3.Archival Demo.reportClient) Demo.background
          ["KP-1"; "KP-2"])).1.1.1
  = Some {| Errors := None; NumberOfIssuesUpdated := 2 |}.
Proof. vm_compute. reflexivity. Qed.

(** A request cannot be built for a nil context: nothing is sent. *)
Example Preserve_nil_context :
  run (internal.Preserve (v3.Archival Demo.reportClient) None ["KP-1"])
  = ((None, None, Some (HTTPError "net/http: nil Context")),
     [EvNewRequest None "PUT" "rest/api/3/issue/archive" ""]).
Proof. vm_compute. reflexivity. Qed.

End scenarios.


(** * Further properties of the code *)

(** ** Construction *)
Section construction_more.
Context `{P : Platform}.

Lemma String_rev_app_app (s t acc : string) :
  String.rev_app (s +:+ t) acc = String.rev_app t (String.rev_app s acc).
Proof.
  revert acc. induction s as [|a s IH]; intros acc; [reflexivity|].
  change (String a s +:+ t) with (String a (s +:+ t)). cbn. apply IH.
Qed.

Lemma HasSuffix_app_slash (s : string) : HasSuffix (s +:+ "/") "/" = true.
Proof.
  unfold HasSuffix, String.rev. rewrite String_rev_app_app.
  change (String.rev_app "/" (String.rev_app s ""))
    with (String "/" (String.rev_app s "")).
  change (String.rev_app "/" "") with "/".
  cbn [String.prefix]. destruct (ascii_dec "/" "/"); [|contradiction].
  destruct (String.rev_app s ""); reflexivity.
Qed.

Lemma normalizedSite_slash (site : string) :
  HasSuffix (normalizedSite site) "/" = true.
Proof.
  unfold normalizedSite. destruct (HasSuffix site "/") eqn:E; [exact E|].
  apply HasSuffix_app_slash.
Qed.

(** [New], step by step. *)
Lemma New_unfold (httpClient : option HTTPClient) (site : string)
    (options : list v3.ClientOption) :
  v3.New httpClient site options
  = if decide (site = "") then (None, Some ErrNoSite)
    else match url_Parse (normalizedSite site) with
         | inl err => (None, Some (URLError err))
         | inr u =>
             match internal_NewServices v3.APIVersion with
             | Some err => (None, Some err)
             | None =>
                 match v3.applyOptions options (freshClient httpClient u) with
                 | (_, Some err) => (None, Some err)
                 | (client, None) => (Some client, None)
                 end
             end
         end.
Proof. reflexivity. Qed.

(** X1.  The slash at the end of the site is optional: a non-empty site
    without it gives the same client, or the same error, as the site with
    it; and normalising is idempotent. *)
Theorem New_site_trailing_slash (httpClient : option HTTPClient) (site : string)
    (options : list v3.ClientOption) :
  site <> "" ->
  v3.New httpClient site options = v3.New httpClient (normalizedSite site) options
  /\ normalizedSite (normalizedSite site) = normalizedSite site.
Proof.
  intros Hsite.
  assert (Hidem : normalizedSite (normalizedSite site) = normalizedSite site).
  { unfold normalizedSite at 1. now rewrite normalizedSite_slash. }
  split; [|exact Hidem].
  rewrite !New_unfold, Hidem.
  destruct (decide (site = "")) as [|_]; [contradiction|].
  destruct (decide (normalizedSite site = "")) as [Hn|_]; [|reflexivity].
  exfalso. unfold normalizedSite in Hn.
  destruct (HasSuffix site "/"); [contradiction|].
  destruct site; discriminate Hn.
Qed.

Lemma New_Some_inv (httpClient : option HTTPClient) (site : string)
    (options : list v3.ClientOption) (client : v3.Client) :
  v3.New httpClient site options = (Some client, None) ->
  site <> ""
  /\ exists u,
       url_Parse (normalizedSite site) = inr u
       /\ internal_NewServices v3.APIVersion = None
       /\ v3.applyOptions options (freshClient httpClient u) = (client, None).
Proof.
  rewrite New_unfold.
  destruct (decide (site = "")) as [|Hsite]; [discriminate|].
  destruct (url_Parse _) as [e|u]; [discriminate|].
  destruct (internal_NewServices _) as [e|]; [discriminate|].
  destruct (v3.applyOptions _ _) as [c [e|]] eqn:Happly; [discriminate|].
  intros [= <-]. split; [exact Hsite|]. exists u. auto.
Qed.

(** [New] returns a client exactly when the site is not empty, its
    normalised text parses, the resource services are built and every option
    succeeds in turn on the fresh client; the client returned is the one the
    options produced. *)
Lemma New_success_iff (httpClient : option HTTPClient) (site : string)
    (options : list v3.ClientOption) (client : v3.Client) :
  v3.New httpClient site options = (Some client, None)
  <-> site <> ""
      /\ exists u,
           url_Parse (normalizedSite site) = inr u
           /\ internal_NewServices v3.APIVersion = None
           /\ v3.applyOptions options (freshClient httpClient u) = (client, None).
Proof.
  split; [apply New_Some_inv|].
  intros (Hsite & u & Hparse & Hsvc & Happly). rewrite New_unfold.
  destruct (decide (site = "")); [contradiction|].
  now rewrite Hparse, Hsvc, Happly.
Qed.

Lemma sameFixedCredentials_refl (a : common.Authentication) :
  sameFixedCredentials a a.
Proof. repeat split. Qed.

Lemma sameFixedCredentials_trans (a b c : common.Authentication) :
  sameFixedCredentials a b -> sameFixedCredentials b c -> sameFixedCredentials a c.
Proof.
  intros (H1 & H2 & H3 & H4) (K1 & K2 & K3 & K4).
  repeat split; congruence.
Qed.

Lemma WithOAuth_frame (config : option OAuth2Config) (c : v3.Client) :
  v3.HTTP (v3.WithOAuth config c).1 = v3.HTTP c
  /\ v3.Auth (v3.WithOAuth config c).1 = v3.Auth c
  /\ v3.Site (v3.WithOAuth config c).1 = v3.Site c.
Proof.
  unfold v3.WithOAuth. destruct config as [config|]; [|auto].
  destruct (oauth2_NewOAuth2Service _ _); auto.
Qed.

Lemma WithAutoRenewalToken_frame (token : option common.OAuth2Token) (c : v3.Client) :
  v3.OAuth (v3.WithAutoRenewalToken token c).1 = v3.OAuth c
  /\ sameFixedCredentials (v3.Auth (v3.WithAutoRenewalToken token c).1) (v3.Auth c)
  /\ v3.Site (v3.WithAutoRenewalToken token c).1 = v3.Site c.
Proof.
  unfold v3.WithAutoRenewalToken.
  destruct token as [token|]; [|repeat split].
  destruct (v3.OAuth c) as [oauth|] eqn:Ho; [|cbn; rewrite ?Ho; repeat split].
  destruct (oauth2_SetupTokenSourcesWithStorage _ _ _) as [e|[s reuse]];
    [cbn; rewrite ?Ho; repeat split|].
  destruct (oauth2_ExtractWrapper _); cbn; rewrite ?Ho; repeat split.
Qed.

Lemma Provided_frame (option : v3.ClientOption) (c : v3.Client) :
  Provided option ->
  v3.Site (option c).1 = v3.Site c
  /\ sameFixedCredentials (v3.Auth (option c).1) (v3.Auth c).
Proof.
  intros [config|token|config token|store|callback].
  - destruct (WithOAuth_frame config c) as (_ & Ha & Hs).
    rewrite Ha. split; [exact Hs|apply sameFixedCredentials_refl].
  - destruct (WithAutoRenewalToken_frame token c) as (_ & Ha & Hs). auto.
  - unfold v3.WithOAuthWithAutoRenewal.
    destruct (WithOAuth_frame config c) as (_ & Ha & Hs).
    destruct (v3.WithOAuth config c) as [c1 [e|]]; cbn in *.
    + rewrite Ha. split; [exact Hs|apply sameFixedCredentials_refl].
    + destruct (WithAutoRenewalToken_frame token c1) as (_ & Ha' & Hs').
      rewrite Hs', Hs. split; [reflexivity|]. now rewrite <- Ha.
  - unfold v3.WithTokenStore. destruct store; cbn;
      (split; [reflexivity|apply sameFixedCredentials_refl]).
  - unfold v3.WithTokenCallback. destruct callback; cbn;
      (split; [reflexivity|apply sameFixedCredentials_refl]).
Qed.

Lemma applyOptions_frame (options : list v3.ClientOption) (c : v3.Client) :
  Forall Provided options ->
  v3.Site (v3.applyOptions options c).1 = v3.Site c
  /\ sameFixedCredentials (v3.Auth (v3.applyOptions options c).1) (v3.Auth c).
Proof.
  intros Hall. revert c.
  induction Hall as [|o options Ho Hall IH]; intros c; cbn.
  { split; [reflexivity|apply sameFixedCredentials_refl]. }
  destruct (Provided_frame o c Ho) as (Hs & Ha).
  destruct (o c) as [c1 [e|]]; cbn in *; [auto|].
  destruct (IH c1) as (Hs' & Ha'). split; [congruence|].
  eapply sameFixedCredentials_trans; eauto.
Qed.

(** X2.  The options of the package never change the site, the basic-auth
    credentials or the user agent of a client, alone or in sequence.  So a
    client that [New] returns for such options has the parsed site, no
    basic-auth and no user agent: these are set after construction. *)
Theorem New_provided_options_frame (httpClient : option HTTPClient) (site : string)
    (options : list v3.ClientOption) (client : v3.Client) :
  Forall Provided options ->
  v3.New httpClient site options = (Some client, None) ->
  url_Parse (normalizedSite site) = inr (v3.Site client)
  /\ common.HasBasicAuth (v3.Auth client) = false
  /\ common.HasUserAgent (v3.Auth client) = false.
Proof.
  intros Hall (_ & u & Hparse & _ & Happly)%New_Some_inv.
  destruct (applyOptions_frame options (freshClient httpClient u) Hall)
    as (Hs & Hb & _ & Hu & _).
  rewrite Happly in Hs, Hb, Hu. cbn in Hs, Hb, Hu.
  rewrite Hs. auto.
Qed.

(** X3.  An option of the package that fails has not touched the client,
    with one exception: the composite option may fail in its second step,
    and then the OAuth2 service of its first step stays installed while
    transport, credentials and site are as before. *)
Theorem failed_option_leaves_client (c : v3.Client) :
  (forall config, (v3.WithOAuth config c).2 <> None -> (v3.WithOAuth config c).1 = c)
  /\ (forall token,
        (v3.WithAutoRenewalToken token c).2 <> None ->
        (v3.WithAutoRenewalToken token c).1 = c)
  /\ (forall store,
        (v3.WithTokenStore store c).2 <> None -> (v3.WithTokenStore store c).1 = c)
  /\ (forall callback,
        (v3.WithTokenCallback callback c).2 <> None ->
        (v3.WithTokenCallback callback c).1 = c)
  /\ (forall config token,
        (v3.WithOAuthWithAutoRenewal config token c).2 <> None ->
        v3.HTTP (v3.WithOAuthWithAutoRenewal config token c).1 = v3.HTTP c
        /\ v3.Auth (v3.WithOAuthWithAutoRenewal config token c).1 = v3.Auth c
        /\ v3.Site (v3.WithOAuthWithAutoRenewal config token c).1 = v3.Site c).
Proof.
  assert (Hoauth : forall c config,
    (v3.WithOAuth config c).2 <> None -> (v3.WithOAuth config c).1 = c).
  { intros c0 config. unfold v3.WithOAuth. destruct config as [config|]; [|reflexivity].
    destruct (oauth2_NewOAuth2Service _ _); [reflexivity|]. cbn. congruence. }
  assert (Hrenew : forall c token,
    (v3.WithAutoRenewalToken token c).2 <> None ->
    (v3.WithAutoRenewalToken token c).1 = c).
  { intros c0 token. unfold v3.WithAutoRenewalToken.
    destruct token as [token|]; [|reflexivity].
    destruct (v3.OAuth c0); [|reflexivity].
    destruct (oauth2_SetupTokenSourcesWithStorage _ _ _) as [e|[s reuse]];
      [reflexivity|].
    cbn. congruence. }
  split; [apply Hoauth|]. split; [apply Hrenew|]. split; [|split].
  - intros store. unfold v3.WithTokenStore. destruct store; cbn; congruence.
  - intros callback. unfold v3.WithTokenCallback. destruct callback; cbn; congruence.
  - intros config token. unfold v3.WithOAuthWithAutoRenewal.
    destruct (WithOAuth_frame config c) as (Hh & Ha & Hs).
    destruct (v3.WithOAuth config c) as [c1 [e|]]; cbn in *; [auto|].
    intros Hfail. rewrite (Hrenew c1 token Hfail). auto.
Qed.

(** X4.  [New] returns the error of the first option that fails; the options
    after it are not applied and make no difference. *)
Theorem New_stops_at_first_failure (httpClient : option HTTPClient) (site : string)
    (pre post : list v3.ClientOption) (option : v3.ClientOption)
    (client : v3.Client) (err : error) :
  v3.New httpClient site pre = (Some client, None) ->
  (option client).2 = Some err ->
  v3.New httpClient site (pre ++ option :: post) = (None, Some err).
Proof.
  intros (Hsite & u & Hparse & Hsvc & Happly)%New_Some_inv Hfail.
  rewrite New_unfold. destruct (decide (site = "")); [contradiction|].
  rewrite Hparse, Hsvc, applyOptions_app, Happly. cbn [v3.applyOptions].
  destruct (option client) as [c' [e|]]; cbn in Hfail; congruence.
Qed.

(** X5.  Auto-renewal on a client with an OAuth2 service succeeds exactly
    when the token sources can be set up.  The client then sends through an
    OAuth transport over the base transport of its previous HTTP client,
    whether that was a wrapper or not, and has the token's access token as
    bearer token; OAuth2 service and site are as before. *)
Theorem WithAutoRenewalToken_with_OAuth (token : common.OAuth2Token)
    (oauth : OAuth2Service) (c : v3.Client) :
  v3.OAuth c = Some oauth ->
  ((v3.WithAutoRenewalToken (Some token) c).2 = None
   <-> exists sources,
         oauth2_SetupTokenSourcesWithStorage token oauth (v3.HTTP c) = inr sources)
  /\ (forall sources,
        oauth2_SetupTokenSourcesWithStorage token oauth (v3.HTTP c) = inr sources ->
        (v3.WithAutoRenewalToken (Some token) c).1
        = {| v3.HTTP := oauth2_CreateOAuthTransport sources.2
                          (oauth2_ExtractBaseTransport (v3.HTTP c));
             v3.Auth := common.SetBearerToken (common.AccessToken token) (v3.Auth c);
             v3.OAuth := Some oauth;
             v3.Site := v3.Site c |})
  /\ (forall msg,
        oauth2_SetupTokenSourcesWithStorage token oauth (v3.HTTP c) = inl msg ->
        v3.WithAutoRenewalToken (Some token) c
        = (c, Some (ErrorfWrap "failed to setup token sources: %w" (OAuth2Error msg)))).
Proof.
  intros Ho. unfold v3.WithAutoRenewalToken. rewrite Ho.
  destruct (oauth2_SetupTokenSourcesWithStorage token oauth (v3.HTTP c))
    as [e|[s reuse]].
  - split; [split; [discriminate|intros [? [=]]]|]. split; [discriminate|].
    now intros msg [= ->].
  - split; [split; [eauto|reflexivity]|]. split; [|discriminate].
    intros sources [= <-]. cbn.
    destruct (oauth2_ExtractWrapper (v3.HTTP c));
      unfold v3.setAuth, v3.setHTTP; cbn; now rewrite Ho.
Qed.


End construction_more.


(** ** The request pipeline *)

(** Runs a successful [NewRequest] up to the request it returns. *)
Ltac NewRequest_built H :=
  unfold v3.NewRequest, v3.http_NewRequestWithContext in H;
  match type of H with
  | context [match url_Parse ?s with inl _ => _ | inr _ => _ end] =>
      destruct (url_Parse s) as [?|?] in H; [discriminate H|]
  end;
  match type of H with
  | context [match ?enc with inl _ => Err (JSONError _) | inr _ => _ end] =>
      let E := fresh "Eenc" in
      destruct enc as [?|?] eqn:E in H; [discriminate H|]
  end;
  cbv zeta in H;
  destruct (http_validMethod _) in H; [|discriminate H];
  match type of H with
  | context [match ?ctx with Some _ => _ | None => _ end] =>
      destruct ctx as [?|] in H; [|discriminate H]
  end;
  destruct (url_Parse (url_String _)) as [?|?] in H; [discriminate H|];
  cbn [negb] in H;
  injection H as H; subst.

Section request_more.
Context `{P : Platform}.


(** The steps after the request is created change nothing but the
    header. *)
Lemma NewRequest_fields {V} `{JSONEncode V} (c : v3.Client)
    (ctx : option context_Context) (method urlStr contentType : string)
    (body : Body V) (req : http.Request) :
  v3.NewRequest c ctx method urlStr contentType body = Ok req ->
  exists rel buf u,
    url_Parse urlStr = inr rel
    /\ match body with BodyNil => inr "" | _ => Encode body end = inr buf
    /\ url_Parse (url_String (url_ResolveReference (v3.Site c) rel)) = inr u
    /\ http.Method req = (if decide (method = "") then "GET" else method)
    /\ http.URL req = url_String (http_removeEmptyPort u)
    /\ http.Body req = match body with BodyBuffer b => b | _ => buf end.
Proof.
  unfold v3.NewRequest, v3.http_NewRequestWithContext.
  destruct (url_Parse urlStr) as [e|rel]; [discriminate|].
  destruct (match body with BodyNil => inr "" | _ => Encode body end)
    as [e|buf] eqn:Eenc; [discriminate|].
  cbv zeta.
  destruct (http_validMethod _); [|discriminate].
  destruct ctx as [ctx|]; [|discriminate].
  destruct (url_Parse (url_String _)) as [e|u] eqn:Eurl; [discriminate|].
  cbn [negb]. intros [= <-]. exists rel, buf, u.
  split; [reflexivity|]. split; [reflexivity|]. split; [exact Eurl|].
  destruct (common.HasBasicAuth (v3.Auth c)), (common.HasUserAgent (v3.Auth c)),
    (common.GetBasicAuth (v3.Auth c)); cbn;
    repeat case_bool_decide; cbn; auto.
Qed.

(** X7.  [NewRequest] builds a request exactly when the URL text parses, a
    body that is neither nil nor a byte buffer can be encoded, and
    [net/http] accepts the method (GET for the empty one), is given a
    context that is not nil, and can parse the text of the resolved URL.
    Its errors are those of these steps, in this order: a URL that does not
    parse is reported whatever the body, and a nil context is reported once
    URL, body and method have passed. *)
Theorem NewRequest_success_iff {V} `{JSONEncode V} (c : v3.Client)
    (ctx : option context_Context)
    (method urlStr contentType : string) (body : Body V) :
  ((exists req, v3.NewRequest c ctx method urlStr contentType body = Ok req)
   <-> exists rel u,
         url_Parse urlStr = inr rel
         /\ (forall v, body = BodyValue v -> exists buf, json_Encode v = inr buf)
         /\ http_validMethod (if decide (method = "") then "GET" else method) = true
         /\ ctx <> None
         /\ url_Parse (url_String (url_ResolveReference (v3.Site c) rel)) = inr u)
  /\ (forall msg, url_Parse urlStr = inl msg ->
        v3.NewRequest c ctx method urlStr contentType body = Err (URLError msg))
  /\ (forall rel v msg, url_Parse urlStr = inr rel -> body = BodyValue v ->
        json_Encode v = inl msg ->
        v3.NewRequest c ctx method urlStr contentType body = Err (JSONError msg))
  /\ (forall rel, url_Parse urlStr = inr rel ->
        (forall v, body = BodyValue v -> exists buf, json_Encode v = inr buf) ->
        http_validMethod (if decide (method = "") then "GET" else method) = true ->
        ctx = None ->
        v3.NewRequest c ctx method urlStr contentType body
        = Err (HTTPError "net/http: nil Context"))
  /\ (forall err, v3.NewRequest c ctx method urlStr contentType body = Err err ->
        (exists msg, err = URLError msg) \/ (exists msg, err = JSONError msg)
        \/ (exists msg, err = HTTPError msg)).
Proof.
  assert (Henc : (forall v, body = BodyValue v -> exists buf, json_Encode v = inr buf) ->
                 exists buf, match body with BodyNil => inr "" | _ => Encode body end
                             = inr buf).
  { intros Hbody. destruct body as [|b|v]; cbn; eauto. }
  split; [split|split; [|split; [|split]]].
  - intros [req Hreq].
    destruct (NewRequest_Ok_inv _ _ _ _ _ _ _ Hreq)
      as (rel & buf & u & Hparse & Hbuf & Hvalid & Hctx & Hurl).
    exists rel, u. split; [exact Hparse|]. split; [|auto].
    intros v ->. eauto.
  - intros (rel & u & Hparse & Hbody & Hvalid & Hctx & Hurl).
    destruct (Henc Hbody) as [buf Hbuf].
    eapply NewRequest_succeeds; eauto.
  - intros msg Hparse. unfold v3.NewRequest. now rewrite Hparse.
  - intros rel v msg Hparse -> Hfail. unfold v3.NewRequest. rewrite Hparse.
    cbn. now rewrite Hfail.
  - intros rel Hparse Hbody Hvalid ->.
    destruct (Henc Hbody) as [buf Hbuf].
    unfold v3.NewRequest, v3.http_NewRequestWithContext.
    rewrite Hparse, Hbuf. cbv zeta. now rewrite Hvalid.
  - intros err. unfold v3.NewRequest, v3.http_NewRequestWithContext.
    destruct (url_Parse urlStr) as [e|rel]; [intros [= <-]; eauto|].
    destruct (match body with BodyNil => inr "" | _ => Encode body end)
      as [e|buf]; [intros [= <-]; eauto|].
    cbv zeta.
    destruct (http_validMethod _); cbn [negb]; [|intros [= <-]; eauto].
    destruct ctx as [ctx|]; [|intros [= <-]; eauto].
    destruct (url_Parse (url_String _)) as [e|u]; [intros [= <-]; eauto|].
    discriminate.
Qed.

(** X8.  A request built by [NewRequest] goes to the reference resolved
    against the site of the client, as [net/http] reads its text (parsed
    again, an empty port removed), with the method given (GET for the empty
    method); setting headers and credentials leaves method, URL and payload
    as they were built. *)
Theorem NewRequest_method_and_URL {V} `{JSONEncode V} (c : v3.Client)
    (ctx : option context_Context)
    (method urlStr contentType : string) (body : Body V) (req : http.Request) :
  v3.NewRequest c ctx method urlStr contentType body = Ok req ->
  exists rel u,
    url_Parse urlStr = inr rel
    /\ url_Parse (url_String (url_ResolveReference (v3.Site c) rel)) = inr u
    /\ http.URL req = url_String (http_removeEmptyPort u)
    /\ http.Method req = (if decide (method = "") then "GET" else method)
    /\ (body = BodyNil -> http.Body req = "").
Proof.
  intros Hreq.
  destruct (NewRequest_fields _ _ _ _ _ _ _ Hreq)
    as (rel & buf & u & Hparse & Henc & Hurl & Hm & Hu & Hb).
  exists rel, u. repeat split; auto.
  intros ->. rewrite Hb. now injection Henc as <-.
Qed.

(** X9.  [NewRequest] sets no header besides Accept, Content-Type,
    X-Atlassian-Token, Authorization and User-Agent, and no header has more
    than one value. *)
Theorem NewRequest_header_names {V} `{JSONEncode V} (c : v3.Client)
    (ctx : option context_Context) (method urlStr contentType : string)
    (body : Body V) (req : http.Request) :
  v3.NewRequest c ctx method urlStr contentType body = Ok req ->
  dom (http.Header req) ⊆ requestHeaderNames
  /\ forall key values, http.Header req !! key = Some values -> length values = 1%nat.
Proof.
  intros Hreq. NewRequest_built Hreq. unfold requestHeaderNames.
  destruct (v3.Auth c) as [hasBasic [user pass] hasAgent agent bearer]; cbn.
  destruct hasBasic, hasAgent, (decide (contentType = "")), body; cbn;
    repeat case_bool_decide; cbn;
    unfold http.SetBasicAuth, http.setHeader, Header_Add, Header_Set; cbn;
    repeat (rewrite lookup_insert_ne by discriminate); rewrite ?lookup_empty; cbn;
    (split;
     [ rewrite ?dom_insert_L, dom_empty_L; intros k;
       rewrite ?elem_of_union, ?elem_of_singleton, elem_of_empty; tauto
     | intros key values;
       repeat (rewrite lookup_insert;
               destruct (decide (_ = key)); [intros [= <-]; reflexivity|]);
       rewrite lookup_empty; discriminate ]).
Qed.

End request_more.

(** ** The response classifier *)
Section classifier_more.
Context `{P : Platform}.

(** X10.  [Call] returns no envelope exactly when the transport fails, and
    then it returns the transport's error and leaves the destination alone:
    every response, whatever its status, comes back in an envelope. *)
Theorem Call_envelope_iff {D} `{JSONUnmarshal D} (c : v3.Client)
    (request : http.Request) (structure : option D) :
  ((v3.Call c request structure).1.2 = None
   <-> exists msg, http_Do (v3.HTTP c) request = inl msg)
  /\ (forall msg, http_Do (v3.HTTP c) request = inl msg ->
        v3.Call c request structure = (structure, None, Some (HTTPError msg))).
Proof.
  unfold v3.Call. destruct (http_Do (v3.HTTP c) request) as [msg|response].
  - split; [split; eauto|]. now intros ? [= ->].
  - split; [|discriminate].
    destruct (processResponse_envelope response structure) as (res & Hres & _).
    rewrite Hres. split; [discriminate|intros [? [=]]].
Qed.

(** X11.  Whenever [Call] returns an error that is not a decoding error (a
    transport failure, a failed read of the body, a status outside
    [200,300)), the destination is as it was. *)
Theorem Call_error_keeps_destination {D} `{JSONUnmarshal D} (c : v3.Client)
    (request : http.Request) (structure dest : option D)
    (res : option ResponseScheme) (err : error) :
  v3.Call c request structure = (dest, res, Some err) ->
  (forall msg, err <> JSONError msg) ->
  dest = structure.
Proof.
  unfold v3.Call. destruct (http_Do (v3.HTTP c) request) as [msg|response];
    [now intros [= <- _ _]|].
  destruct (http.ReadAll response) as [data [e|]] eqn:Hread.
  { rewrite (processResponse_read_error _ _ data e Hread). now intros [= <- _ _]. }
  destruct (decide (Spec.success (http.StatusCode response))) as [Hok|Hko].
  - rewrite (processResponse_success _ _ data Hread Hok).
    destruct structure as [d|]; [|discriminate].
    destruct (json_Unmarshal data d) as [d' [e|]]; cbn; [|discriminate].
    intros [= _ _ <-] Hne. now destruct (Hne e).
  - rewrite (processResponse_failure _ _ data Hread Hko). now intros [= <- _ _].
Qed.

(** X12.  [Call] reports no error exactly when the transport produced a
    response, its body was read to the end, its status is in [200,300) and,
    with a destination, the body decoded into it. *)
Theorem Call_success_iff {D} `{JSONUnmarshal D} (c : v3.Client)
    (request : http.Request) (structure : option D) :
  (v3.Call c request structure).2 = None
  <-> exists response data,
        http_Do (v3.HTTP c) request = inr response
        /\ http.ReadAll response = (data, None)
        /\ Spec.success (http.StatusCode response)
        /\ forall d, structure = Some d -> (json_Unmarshal data d).2 = None.
Proof.
  unfold v3.Call. split.
  - destruct (http_Do (v3.HTTP c) request) as [msg|response]; [discriminate|].
    destruct (http.ReadAll response) as [data [e|]] eqn:Hread.
    { now rewrite (processResponse_read_error _ _ data e Hread). }
    destruct (decide (Spec.success (http.StatusCode response))) as [Hok|Hko].
    + rewrite (processResponse_success _ _ data Hread Hok).
      intros Hcall. exists response, data. repeat split; auto; try apply Hok.
      intros d ->. cbn in Hcall. now destruct (json_Unmarshal data d).2.
    + now rewrite (processResponse_failure _ _ data Hread Hko).
  - intros (response & data & -> & Hread & Hok & Hdec).
    rewrite (processResponse_success _ _ data Hread Hok).
    destruct structure as [d|]; [|reflexivity].
    cbn. now rewrite (Hdec d eq_refl).
Qed.

(** X13.  The envelope of a response always has the response itself, its
    status code and the URL and method of the request that led to it.  Its
    bytes are the whole body when that was read to the end, and empty when
    reading failed: what was read before the failure is dropped. *)
Theorem Call_envelope_fields {D} `{JSONUnmarshal D} (c : v3.Client)
    (request : http.Request) (structure : option D) (response : http.Response) :
  http_Do (v3.HTTP c) request = inr response ->
  exists res,
    (v3.Call c request structure).1.2 = Some res
    /\ Response res = response
    /\ Code res = http.StatusCode response
    /\ Endpoint res = http.URL (http.FinalRequest response)
    /\ Method res = http.Method (http.FinalRequest response)
    /\ Bytes res = match http.ReadAll response with
                   | (data, None) => data
                   | (_, Some _) => ""
                   end.
Proof.
  intros Hdo. unfold v3.Call. rewrite Hdo.
  destruct (http.ReadAll response) as [data [e|]] eqn:Hread.
  { rewrite (processResponse_read_error _ _ data e Hread). cbn. eauto 10. }
  destruct (decide (Spec.success (http.StatusCode response))) as [Hok|Hko].
  - rewrite (processResponse_success _ _ data Hread Hok).
    destruct structure; cbn; eauto 10.
  - rewrite (processResponse_failure _ _ data Hread Hko). cbn. eauto 10.
Qed.

End classifier_more.

(** ** The archival resource *)
Section archival_more.
Context `{P : Platform}.
Import service.

Ltac run_archival :=
  unfold internal.IssueArchivalService_Preserve, internal.IssueArchivalService_Restore,
    internal.IssueArchivalService_PreserveByJQL, internal.IssueArchivalService_Export,
    internal.Preserve, internal.Restore, internal.PreserveByJQL, internal.Export,
    internal.c_NewRequest, internal.c_Call, bind, emit, ret;
  cbn [internal.internalClient internal.NewIssueArchivalService internal.c
       internal.version].

(** X14.  Past validation, [Preserve] and [Restore] use the connector once:
    one request is asked for (the caller's context, PUT, no content type,
    the issues under the key issueIdsOrKeys, at the archive respectively
    unarchive endpoint of the service's API version) and, only if it is
    built, one call is made, with that request. *)
Theorem archival_sync_uses_connector_once (conn : Connector) (version : string)
    (ctx : option context_Context) (issueIdsOrKeys : list string) (log : list Event) :
  issueIdsOrKeys <> [] ->
  builtAndSent conn ctx http.MethodPut ("rest/api/" +:+ version +:+ "/issue/archive")
    (BodyValue (issuesPayload issueIdsOrKeys)) log
    (internal.IssueArchivalService_Preserve
       (internal.NewIssueArchivalService conn version) ctx issueIdsOrKeys log).2
  /\ builtAndSent conn ctx http.MethodPut
       ("rest/api/" +:+ version +:+ "/issue/unarchive")
       (BodyValue (issuesPayload issueIdsOrKeys)) log
       (internal.IssueArchivalService_Restore
          (internal.NewIssueArchivalService conn version) ctx issueIdsOrKeys log).2.
Proof.
  intros Hne. unfold builtAndSent, issuesPayload. run_archival.
  destruct (decide (length issueIdsOrKeys = 0%nat)) as [Hl|_].
  { destruct issueIdsOrKeys; [contradiction|discriminate Hl]. }
  split.
  - cbn. destruct (NewRequest conn _ _ _ _ _ _) as [request|e]; cbn; [|reflexivity].
    destruct (Call conn _ _ _) as [[? ?] [?|]]; cbn; now rewrite <- app_assoc.
  - cbn. destruct (NewRequest conn _ _ _ _ _ _) as [request|e]; cbn; [|reflexivity].
    destruct (Call conn _ _ _) as [[? ?] [?|]]; cbn; now rewrite <- app_assoc.
Qed.

(** X15.  [PreserveByJQL] (for a non-empty query) and [Export] (for any
    payload, nil included: it is not validated) use the connector once: one
    request is asked for (POST with the query under the key jql at the
    archive endpoint, respectively PUT with the payload at the export
    endpoint) and, only if it is built, one call is made, with that request. *)
Theorem archival_async_uses_connector_once (conn : Connector) (version : string)
    (ctx : option context_Context)
    (jql : string) (payload : option IssueArchivalExportPayloadScheme)
    (log : list Event) :
  (jql <> "" ->
   builtAndSent conn ctx http.MethodPost
     ("rest/api/" +:+ version +:+ "/issue/archive")
     (BodyValue (jqlPayload jql)) log
     (internal.IssueArchivalService_PreserveByJQL
        (internal.NewIssueArchivalService conn version) ctx jql log).2)
  /\ builtAndSent conn ctx http.MethodPut
       ("rest/api/" +:+ version +:+ "/issues/archive/export")
       (BodyValue payload) log
       (internal.IssueArchivalService_Export
          (internal.NewIssueArchivalService conn version) ctx payload log).2.
Proof.
  unfold builtAndSent, jqlPayload. run_archival. split.
  - intros Hne. destruct (decide (jql = "")); [contradiction|].
    cbn. destruct (NewRequest conn _ _ _ _ _ _) as [request|e]; cbn; [|reflexivity].
    destruct (Call conn _ _ _) as [[? ?] [?|]]; cbn; now rewrite <- app_assoc.
  - cbn. destruct (NewRequest conn _ _ _ _ _ _) as [request|e]; cbn; [|reflexivity].
    destruct (Call conn _ _ _) as [[? ?] [?|]]; cbn; now rewrite <- app_assoc.
Qed.

(** X16.  [Preserve] and [Restore] return a report exactly when they return
    no error, for every connector and every argument. *)
Theorem archival_sync_result_iff_no_error (conn : Connector) (version : string)
    (ctx : option context_Context) (issueIdsOrKeys : list string) (log : list Event) :
  (let out := (internal.IssueArchivalService_Preserve
                 (internal.NewIssueArchivalService conn version)
                 ctx issueIdsOrKeys log).1 in
   is_Some out.1.1 <-> out.2 = None)
  /\ (let out := (internal.IssueArchivalService_Restore
                    (internal.NewIssueArchivalService conn version)
                    ctx issueIdsOrKeys log).1 in
      is_Some out.1.1 <-> out.2 = None).
Proof.
  run_archival.
  destruct (decide (length issueIdsOrKeys = 0%nat)) as [Hl|_].
  { cbn. split; (split; [intros [? [=]]|discriminate]). }
  split; cbn.
  - destruct (NewRequest conn _ _ _ _ _ _) as [request|e]; cbn.
    + destruct (Call conn _ _ _) as [[? ?] [?|]]; cbn;
        (split; [intros [? Heq]; congruence|intros Heq; try discriminate; eauto]).
    + split; [intros [? [=]]|discriminate].
  - destruct (NewRequest conn _ _ _ _ _ _) as [request|e]; cbn.
    + destruct (Call conn _ _ _) as [[? ?] [?|]]; cbn;
        (split; [intros [? Heq]; congruence|intros Heq; try discriminate; eauto]).
    + split; [intros [? [=]]|discriminate].
Qed.

(** X17.  [Preserve] on a client, for a response whose body was read to the
    end: a status outside [200,300) gives no report, the envelope with the
    body, and the error of the status; a status inside gives the report
    decoded from the body, or, when decoding fails, no report (what the
    decoder had filled in is dropped) with the envelope and the decoding
    error. *)
Theorem Preserve_on_client (c : v3.Client) (ctx : option context_Context)
    (issueIdsOrKeys : list string)
    (log : list Event) (request : http.Request) (response : http.Response)
    (data : bytes) :
  issueIdsOrKeys <> [] ->
  v3.NewRequest c ctx http.MethodPut
    ("rest/api/" +:+ v3.APIVersion +:+ "/issue/archive")
    "" (BodyValue (issuesPayload issueIdsOrKeys)) = Ok request ->
  http_Do (v3.HTTP c) request = inr response ->
  http.ReadAll response = (data, None) ->
  let out := (internal.IssueArchivalService_Preserve (archivalOf c)
                ctx issueIdsOrKeys log).1 in
  let decoded := json_Unmarshal data new_IssueArchivalSyncResponseScheme in
  (~ Spec.success (http.StatusCode response) ->
     out = (None, Some (Spec.envelope response data),
            Some (Spec.statusError (http.StatusCode response))))
  /\ (Spec.success (http.StatusCode response) -> decoded.2 = None ->
      out = (Some decoded.1, Some (Spec.envelope response data), None))
  /\ (Spec.success (http.StatusCode response) ->
      forall msg, decoded.2 = Some msg ->
      out = (None, Some (Spec.envelope response data), Some (JSONError msg))).
Proof.
  intros Hne Hreq Hdo Hread. unfold archivalOf, issuesPayload in *. run_archival.
  destruct (decide (length issueIdsOrKeys = 0%nat)) as [Hl|_].
  { destruct issueIdsOrKeys; [contradiction|discriminate Hl]. }
  cbn. unfold issuesPayload in Hreq. rewrite Hreq. cbn. unfold v3.Call. rewrite Hdo.
  split; [|split].
  - intros Hko. now rewrite (processResponse_failure _ _ data Hread Hko).
  - intros Hok Hdec. rewrite (processResponse_success _ _ data Hread Hok).
    cbn in *. now rewrite Hdec.
  - intros Hok msg Hdec. rewrite (processResponse_success _ _ data Hread Hok).
    cbn in *. now rewrite Hdec.
Qed.

Lemma string_of_list_ascii_nil (l : list ascii) :
  string_of_list_ascii l = "" -> l = [].
Proof. destruct l; [reflexivity|discriminate]. Qed.

Lemma path_Base_nonempty (path : string) : path_Base path <> "".
Proof.
  unfold path_Base. destruct path as [|a0 s0]; [discriminate|].
  destruct (untilSlash _) as [|a r]; [discriminate|].
  intros Hnil%string_of_list_ascii_nil.
  apply (f_equal (@length ascii)) in Hnil. rewrite length_rev in Hnil.
  discriminate Hnil.
Qed.

Lemma path_Base_slash (path : string) :
  slash ∈ list_ascii_of_string (path_Base path) -> path_Base path = "/".
Proof.
  unfold path_Base. destruct path as [|a0 s0].
  { cbn. intros Hin. apply list_elem_of_singleton in Hin. discriminate Hin. }
  destruct (untilSlash _) as [|a r] eqn:Elast; [reflexivity|].
  rewrite list_ascii_of_string_of_list_ascii. intros Hin. exfalso.
  apply (untilSlash_no_slash
           (dropSlashes (rev (list_ascii_of_string (String a0 s0))))).
  rewrite Elast. apply list_elem_of_In, in_rev, list_elem_of_In. exact Hin.
Qed.

(** X18.  The task ID that [PreserveByJQL] returns on a client is empty
    exactly when it returns an error; a task ID returned without error has
    no slash in it, unless it is the single slash of a body made of slashes
    only. *)
Theorem PreserveByJQL_task_id_shape (c : v3.Client) (ctx : option context_Context)
    (jql : string) (log : list Event) :
  let out := (internal.IssueArchivalService_PreserveByJQL (archivalOf c)
                ctx jql log).1 in
  (out.1.1 = "" <-> out.2 <> None)
  /\ (slash ∈ list_ascii_of_string out.1.1 -> out.1.1 = "/").
Proof.
  unfold archivalOf. run_archival.
  destruct (decide (jql = "")).
  { cbn. split; [split; [discriminate|reflexivity]|].
    intros Hin. now apply elem_of_nil in Hin. }
  cbn. destruct (v3.NewRequest c _ _ _ _ _) as [request|e]; cbn.
  - destruct (v3.Call c request None) as [[dest res] [e|]]; cbn.
    + split; [split; [discriminate|reflexivity]|].
      intros Hin. now apply elem_of_nil in Hin.
    + split; [|apply path_Base_slash].
      split; [intros Hnil; now apply path_Base_nonempty in Hnil|congruence].
  - split; [split; [discriminate|reflexivity]|].
    intros Hin. now apply elem_of_nil in Hin.
Qed.

Lemma NewRequest_json_value {V} `{JSONEncode V} (c : v3.Client)
    (ctx : option context_Context) (method urlStr : string) (v : V) (req : http.Request) :
  v3.NewRequest c ctx method urlStr "" (BodyValue v) = Ok req ->
  Spec.header "Accept" req = Some ["application/json"]
  /\ Spec.header "Content-Type" req = Some ["application/json"]
  /\ Spec.header "X-Atlassian-Token" req = None
  /\ json_Encode v = inr (http.Body req).
Proof.
  intros Hreq. NewRequest_built Hreq. cbn [Encode] in Eenc.
  destruct (v3.Auth c) as [hasBasic [user pass] hasAgent agent bearer]; cbn.
  destruct hasBasic, hasAgent; cbn; repeat case_bool_decide; cbn;
    unfold Spec.header, http.SetBasicAuth, http.setHeader, Header_Add, Header_Set;
    cbn; repeat first
      [ rewrite lookup_insert_eq
      | rewrite lookup_insert_ne by discriminate
      | rewrite lookup_empty ];
    auto.
Qed.

(** X19.  Every request an archival method sends through a client is a JSON
    request: it accepts JSON, its Content-Type is JSON, it is not marked as
    an upload, its method is PUT (POST for [PreserveByJQL]) and its payload
    is the encoding of the method's payload. *)
Theorem archival_requests_are_JSON (c : v3.Client) (ctx : option context_Context)
    (issueIdsOrKeys : list string)
    (jql : string) (payload : option IssueArchivalExportPayloadScheme)
    (req : http.Request) :
  let json (req : http.Request) :=
    Spec.header "Accept" req = Some ["application/json"]
    /\ Spec.header "Content-Type" req = Some ["application/json"]
    /\ Spec.header "X-Atlassian-Token" req = None in
  (EvCall req ∈ (run (internal.IssueArchivalService_Preserve (archivalOf c)
                        ctx issueIdsOrKeys)).2 ->
   json req /\ http.Method req = "PUT"
   /\ json_Encode (issuesPayload issueIdsOrKeys) = inr (http.Body req))
  /\ (EvCall req ∈ (run (internal.IssueArchivalService_Restore (archivalOf c)
                           ctx issueIdsOrKeys)).2 ->
      json req /\ http.Method req = "PUT"
      /\ json_Encode (issuesPayload issueIdsOrKeys) = inr (http.Body req))
  /\ (EvCall req ∈ (run (internal.IssueArchivalService_PreserveByJQL (archivalOf c)
                           ctx jql)).2 ->
      json req /\ http.Method req = "POST"
      /\ json_Encode (jqlPayload jql) = inr (http.Body req))
  /\ (EvCall req ∈ (run (internal.IssueArchivalService_Export (archivalOf c)
                           ctx payload)).2 ->
      json req /\ http.Method req = "PUT"
      /\ json_Encode payload = inr (http.Body req)).
Proof.
  assert (Hsent : forall V (E : JSONEncode V) method endpoint (v : V) request,
    v3.NewRequest c ctx method endpoint "" (BodyValue v) = Ok request ->
    method <> "" ->
    EvCall req ∈ [EvNewRequest ctx method endpoint ""; EvCall request] ->
    (Spec.header "Accept" req = Some ["application/json"]
     /\ Spec.header "Content-Type" req = Some ["application/json"]
     /\ Spec.header "X-Atlassian-Token" req = None)
    /\ http.Method req = method /\ json_Encode v = inr (http.Body req)).
  { intros V E method endpoint v request Hreq Hm Hin.
    apply elem_of_cons in Hin as [Hin|Hin]; [discriminate Hin|].
    apply list_elem_of_singleton in Hin. injection Hin as <-.
    destruct (NewRequest_json_value _ _ _ _ _ _ Hreq) as (Ha & Hc & Ht & Hb).
    destruct (NewRequest_fields _ _ _ _ _ _ _ Hreq)
      as (rel & buf & u & _ & _ & _ & Hmeth & _).
    rewrite Hmeth. destruct (decide (method = "")); [contradiction|]. auto. }
  assert (Hbuilt : forall method endpoint,
    EvCall req ∈ [EvNewRequest ctx method endpoint ""] -> False).
  { intros method endpoint Hin. apply list_elem_of_singleton in Hin.
    discriminate Hin. }
  cbn zeta. unfold archivalOf, run, issuesPayload, jqlPayload. run_archival.
  split; [|split; [|split]].
  - destruct (decide (length issueIdsOrKeys = 0%nat)).
    { cbn. intros Hin. now apply elem_of_nil in Hin. }
    cbn. destruct (v3.NewRequest c _ _ _ _ _) as [request|e] eqn:Hreq; cbn.
    + destruct (v3.Call c request _) as [[? ?] [?|]]; cbn;
        intros Hin; exact (Hsent _ _ _ _ _ _ Hreq ltac:(discriminate) Hin).
    + intros Hin. destruct (Hbuilt _ _ Hin).
  - destruct (decide (length issueIdsOrKeys = 0%nat)).
    { cbn. intros Hin. now apply elem_of_nil in Hin. }
    cbn. destruct (v3.NewRequest c _ _ _ _ _) as [request|e] eqn:Hreq; cbn.
    + destruct (v3.Call c request _) as [[? ?] [?|]]; cbn;
        intros Hin; exact (Hsent _ _ _ _ _ _ Hreq ltac:(discriminate) Hin).
    + intros Hin. destruct (Hbuilt _ _ Hin).
  - destruct (decide (jql = "")).
    { cbn. intros Hin. now apply elem_of_nil in Hin. }
    cbn. destruct (v3.NewRequest c _ _ _ _ _) as [request|e] eqn:Hreq; cbn.
    + destruct (v3.Call c request _) as [[? ?] [?|]]; cbn;
        intros Hin; exact (Hsent _ _ _ _ _ _ Hreq ltac:(discriminate) Hin).
    + intros Hin. destruct (Hbuilt _ _ Hin).
  - cbn. destruct (v3.NewRequest c _ _ _ _ _) as [request|e] eqn:Hreq; cbn.
    + destruct (v3.Call c request _) as [[? ?] [?|]]; cbn;
        intros Hin; exact (Hsent _ _ _ _ _ _ Hreq ltac:(discriminate) Hin).
    + intros Hin. destruct (Hbuilt _ _ Hin).
Qed.

End archival_more.


(** ** The further properties on the concrete platform *)
Section scenarios_more.
#[local] Existing Instance Demo.platform.
Import service.

Lemma New_site_trailing_slash_witness :
  v3.New None "https://x.atlassian.net" []
  = v3.New None "https://x.atlassian.net/" [].
Proof.
  exact (proj1 (New_site_trailing_slash None "https://x.atlassian.net" []
                  ltac:(discriminate))).
Defined.

Lemma New_provided_options_frame_witness :
  exists client,
    v3.New None "https://x.atlassian.net"
      [v3.WithOAuth (Some true); v3.WithAutoRenewalToken (Some Demo.token)]
    = (Some client, None)
    /\ common.HasBasicAuth (v3.Auth client) = false
    /\ common.GetBearerToken (v3.Auth client) = "at-1".
Proof.
  eexists. split; [reflexivity|]. split; [|reflexivity].
  refine (proj1 (proj2 (New_provided_options_frame None "https://x.atlassian.net"
                          [v3.WithOAuth (Some true);
                           v3.WithAutoRenewalToken (Some Demo.token)] _ _ eq_refl))).
  repeat constructor.
Defined.

Lemma New_stops_at_first_failure_witness :
  v3.New None "https://x.atlassian.net"
    ([Demo.withStore] ++ v3.WithOAuth None :: [Demo.withOAuth])
  = (None, Some (Errorf "oauth config cannot be nil")).
Proof.
  eapply (New_stops_at_first_failure None "https://x.atlassian.net"
            [Demo.withStore] [Demo.withOAuth] (v3.WithOAuth None));
    reflexivity.
Defined.

Lemma WithAutoRenewalToken_with_OAuth_witness :
  (v3.WithAutoRenewalToken (Some Demo.token) Demo.oauthClient).2 = None
  /\ common.GetBearerToken
       (v3.Auth (v3.WithAutoRenewalToken (Some Demo.token) Demo.oauthClient).1)
     = "at-1".
Proof.
  destruct (WithAutoRenewalToken_with_OAuth Demo.token Demo.oauthService
              Demo.oauthClient eq_refl)
    as (Hiff & Hok & _).
  split.
  - apply Hiff. exists Demo.tokenSources. reflexivity.
  - now rewrite (Hok Demo.tokenSources eq_refl).
Defined.


Lemma NewRequest_method_and_URL_witness :
  http.Method (Demo.requestOf (Demo.builtWith Demo.anonymous "" Demo.jqlPayload))
  = "POST"
  /\ http.URL (Demo.requestOf (Demo.builtWith Demo.anonymous "" Demo.jqlPayload))
     = "https://x.atlassian.net/rest/api/3/issue/archive".
Proof.
  destruct (NewRequest_method_and_URL _ _ _ _ _ _ _
              (builtWith_Ok Demo.anonymous "" Demo.jqlPayload))
    as (rel & u & Hparse & Hresolved & Hurl & Hmethod & _).
  split; [exact Hmethod|]. rewrite Hurl.
  injection Hparse as <-. injection Hresolved as <-. reflexivity.
Defined.

Lemma NewRequest_header_names_witness :
  dom (http.Header
         (Demo.requestOf
            (Demo.builtWith Demo.bothCredentials "multipart/form-data"
               (BodyBuffer "abc"))))
  ⊆ requestHeaderNames.
Proof.
  exact (proj1 (NewRequest_header_names _ _ _ _ _ _ _
                  (builtWith_Ok Demo.bothCredentials "multipart/form-data"
                     (BodyBuffer "abc")))).
Defined.

Lemma Call_error_keeps_destination_witness :
  (v3.Call Demo.notFoundClient Demo.someRequest
     (Some new_IssueArchivalSyncResponseScheme)).1.1
  = Some new_IssueArchivalSyncResponseScheme.
Proof.
  eapply (Call_error_keeps_destination Demo.notFoundClient Demo.someRequest
            (Some new_IssueArchivalSyncResponseScheme) _ _ ErrNotFound).
  - reflexivity.
  - discriminate.
Defined.

Lemma Call_envelope_fields_witness :
  exists res,
    (v3.Call (D := Empty_set) Demo.brokenNotFoundClient Demo.someRequest None).1.2
    = Some res
    /\ Code res = 404 /\ Bytes res = "".
Proof.
  destruct (Call_envelope_fields (D := Empty_set) Demo.brokenNotFoundClient
              Demo.someRequest None _ eq_refl)
    as (res & Hres & _ & Hcode & _ & _ & Hbytes).
  exists res. split; [exact Hres|]. split; [exact Hcode|exact Hbytes].
Defined.

Lemma archival_sync_uses_connector_once_witness :
  builtAndSent (v3.connector Demo.reportClient) Demo.background http.MethodPut
    ("rest/api/" +:+ "3" +:+ "/issue/archive")
    (BodyValue (issuesPayload ["KP-1"; "KP-2"])) []
    (run (internal.IssueArchivalService_Preserve
            (internal.NewIssueArchivalService (v3.connector Demo.reportClient) "3")
            Demo.background ["KP-1"; "KP-2"])).2.
Proof.
  exact (proj1 (archival_sync_uses_connector_once (v3.connector Demo.reportClient)
                  "3" Demo.background ["KP-1"; "KP-2"] [] ltac:(discriminate))).
Defined.

Lemma Preserve_on_client_witness :
  (run (internal.IssueArchivalService_Preserve (archivalOf Demo.htmlClient)
          Demo.background ["KP-1"])).1.1.1 = None
  /\ (run (internal.IssueArchivalService_Preserve (archivalOf Demo.htmlClient)
             Demo.background ["KP-1"])).1.2
     = Some (JSONError "invalid character '<' looking for beginning of value")
  /\ (run (internal.IssueArchivalService_Preserve (archivalOf Demo.notFoundClient)
             Demo.background ["KP-1"])).1.2
     = Some ErrNotFound.
Proof.
  pose (built := fun c =>
    Demo.requestOf
      (v3.NewRequest c Demo.background http.MethodPut
         ("rest/api/" +:+ v3.APIVersion +:+ "/issue/archive") ""
         (BodyValue (issuesPayload ["KP-1"])))).
  destruct (Preserve_on_client Demo.htmlClient Demo.background ["KP-1"] []
              (built Demo.htmlClient)
              (Demo.respond 200 Demo.archiveURL Demo.htmlBody (built Demo.htmlClient))
              "<html>" ltac:(discriminate) eq_refl eq_refl eq_refl)
    as (_ & _ & Hdecode).
  destruct (Preserve_on_client Demo.notFoundClient Demo.background ["KP-1"] []
              (built Demo.notFoundClient)
              (Demo.respond 404 Demo.archiveURL Demo.notFoundBody
                 (built Demo.notFoundClient))
              "Issue does not exist" ltac:(discriminate) eq_refl eq_refl eq_refl)
    as (Hstatus & _ & _).
  assert (Hok : Spec.success 200) by (unfold Spec.success; lia).
  assert (Hko : ~ Spec.success 404) by (unfold Spec.success; lia).
  unfold run.
  rewrite (Hdecode Hok _ eq_refl), (Hstatus Hko). auto.
Defined.

Lemma failed_option_leaves_client_witness :
  (v3.WithAutoRenewalToken (Some Demo.token) Demo.reportClient).1 = Demo.reportClient
  /\ v3.HTTP (v3.WithOAuthWithAutoRenewal (Some true) None Demo.reportClient).1
     = v3.HTTP Demo.reportClient.
Proof.
  destruct (failed_option_leaves_client Demo.reportClient)
    as (_ & Hrenew & _ & _ & Hboth).
  split.
  - apply Hrenew. discriminate.
  - apply (Hboth (Some true) None). discriminate.
Defined.

Lemma archival_async_uses_connector_once_witness :
  builtAndSent (v3.connector Demo.acceptedClient) Demo.background http.MethodPost
    ("rest/api/" +:+ "3" +:+ "/issue/archive")
    (BodyValue (jqlPayload "project = X")) []
    (run (internal.IssueArchivalService_PreserveByJQL
            (internal.NewIssueArchivalService (v3.connector Demo.acceptedClient) "3")
            Demo.background "project = X")).2.
Proof.
  exact (proj1 (archival_async_uses_connector_once (v3.connector Demo.acceptedClient)
                  "3" Demo.background "project = X" None []) ltac:(discriminate)).
Defined.

Lemma archival_requests_are_JSON_witness :
  exists req,
    EvCall req ∈ (run (internal.IssueArchivalService_Export
                         (archivalOf Demo.reportClient) Demo.background None)).2
    /\ Spec.header "Content-Type" req = Some ["application/json"]
    /\ http.Method req = "PUT"
    /\ http.Body req = "null" +:+ Demo.newline.
Proof.
  eexists. split.
  { apply elem_of_cons. right. apply elem_of_cons. left. reflexivity. }
  match goal with |- context [Spec.header _ ?r] => set (req := r) end.
  assert (Hin : EvCall req ∈ (run (internal.IssueArchivalService_Export
                                     (archivalOf Demo.reportClient)
                                     Demo.background None)).2).
  { apply elem_of_cons. right. apply elem_of_cons. left. reflexivity. }
  destruct (archival_requests_are_JSON Demo.reportClient Demo.background [] "" None req)
    as (_ & _ & _ & Hexport).
  destruct (Hexport Hin) as ((_ & Hct & _) & Hmethod & Hbody).
  split; [exact Hct|]. split; [exact Hmethod|].
  assert (Hnull : json_Encode (None : option IssueArchivalExportPayloadScheme)
                  = inr ("null" +:+ Demo.newline)) by reflexivity.
  congruence.
Defined.

End scenarios_more.
